(** * MCP client (Groq + LangGraph ReAct agent): query orchestration

    A shallow embedding of [MCPClient.connect] and [MCPClient.query] from
    [MCP_client.py], with the properties the specification states about the
    orchestration: error conversion, answer extraction from the streamed
    messages, the step trace, the greeting short-circuit and the memory
    discipline.

    Conventions.
    - A Python [str] is a [string] whose characters are the code points
      U+0000..U+00FF; text outside that range is not covered.
    - Calls to [logger] only write to the log and are left out: they change
      neither the returned value nor the client.
    - A call that may raise returns an [outcome]; the [try]/[except Exception]
      blocks of the source are the [match]es on it. *)

From Stdlib Require Import List String Ascii ZArith Lia Bool Arith DecimalString.
Import ListNotations.
Local Open Scope string_scope.
Local Open Scope list_scope.

(* ------------------------------------------------------------------ *)
(** ** Python string operations used by the client *)

Module PyStr.

(** [str.isspace] on one code point below U+0100. *)
Definition isspace (c : ascii) : bool :=
  let n := nat_of_ascii c in
  (((9 <=? n) && (n <=? 13)) || ((28 <=? n) && (n <=? 32))
   || (n =? 133) || (n =? 160))%nat.

(** [str.lower] on one code point below U+0100: A-Z and the Latin-1
    capitals (all of U+00C0..U+00DE but the multiplication sign). *)
Definition lower_char (c : ascii) : ascii :=
  let n := nat_of_ascii c in
  if (((65 <=? n) && (n <=? 90))
      || ((192 <=? n) && (n <=? 222) && negb (n =? 215)))%nat
  then ascii_of_nat (n + 32) else c.

Fixpoint lower (s : string) : string :=
  match s with
  | EmptyString => EmptyString
  | String c s' => String (lower_char c) (lower s')
  end.

Fixpoint lstrip (s : string) : string :=
  match s with
  | EmptyString => EmptyString
  | String c s' => if isspace c then lstrip s' else s
  end.

Fixpoint rstrip (s : string) : string :=
  match s with
  | EmptyString => EmptyString
  | String c s' =>
      match rstrip s' with
      | EmptyString => if isspace c then EmptyString else String c EmptyString
      | r => String c r
      end
  end.

(** [s.strip()] *)
Definition strip (s : string) : string := rstrip (lstrip s).

(** [s[:n]] for [n >= 0] *)
Fixpoint take (n : nat) (s : string) : string :=
  match n, s with
  | S n', String c s' => String c (take n' s')
  | _, _ => EmptyString
  end.

(** [s.startswith(p)] *)
Definition startswith (p s : string) : bool := String.prefix p s.

(** truth value of a string: [bool(s)] *)
Definition truthy (s : string) : bool :=
  match s with EmptyString => false | _ => true end.

(** [c * n] for a one-character string [c] *)
Fixpoint replicate (n : nat) (c : ascii) : string :=
  match n with
  | 0 => EmptyString
  | S n' => String c (replicate n' c)
  end.

(** [l[-n:]] on a list, for any integer [n] (Python slice semantics:
    a negative start counts from the end and is clipped at 0; [-0] is 0,
    so [l[-0:]] is the whole list). *)
Definition last_slice {A} (n : Z) (l : list A) : list A :=
  let len := Z.of_nat (List.length l) in
  let start := (- n)%Z in
  let start := if (start <? 0)%Z then Z.max 0 (start + len) else Z.min start len in
  skipn (Z.to_nat start) l.

End PyStr.

(* ------------------------------------------------------------------ *)
(** ** Data model *)

(** Python exceptions deriving from [Exception]: class name and [str(e)]. *)
Record PyException := mkExc { exc_class : string; exc_str : string }.

Definition RuntimeError (msg : string) : PyException := mkExc "RuntimeError" msg.

Inductive outcome (A : Type) : Type :=
| Returned (a : A)
| Raised (e : PyException).
Arguments Returned {A} a.
Arguments Raised {A} e.

(** One entry of [AIMessage.tool_calls]. *)
Record ToolCall := mkToolCall { tc_name : string; tc_args : string }.

(** The LangChain messages the client handles. *)
Inductive Message :=
| HumanMessage (content : string)
| AIMessage (content : string) (tool_calls : list ToolCall)
| ToolMessage (name : string) (content : string).

Definition content (m : Message) : string :=
  match m with
  | HumanMessage c => c
  | AIMessage c _ => c
  | ToolMessage _ c => c
  end.

(** A node's output is a dict; only its ["messages"] key is read, with
    [.get("messages", [])]. *)
Definition NodeOutput := option (list Message).

Definition get_messages (o : NodeOutput) : list Message :=
  match o with Some l => l | None => [] end.

(** One chunk of [agent.astream]: a dict from node name to node output, in
    insertion order. *)
Definition Chunk := list (string * NodeOutput).

(** What one [astream] call delivers: the chunks it yields, then either the
    end of the stream or an exception. *)
Record AgentRun := mkRun { chunks : list Chunk; raised : option PyException }.

(** The compiled agent is a black box.  Its first argument is the number of
    external calls made so far, so the engine may answer the same context
    differently over time. *)
Definition Agent := nat -> list Message -> AgentRun.

Record Tool := mkTool { tool_name : string; tool_description : string }.

(** An entry of [intermediate_steps]. *)
Record Step := mkStep { tool : string; result : string }.

(** The dict [query] returns. *)
Inductive QueryResult :=
| Success (response : string) (intermediate_steps : list Step)
| Error (message : string).

Inductive Status := success | error.

Definition status (r : QueryResult) : Status :=
  match r with Success _ _ => success | Error _ => error end.

Record ClientConfig := mkConfig {
  groq_api_key : string;
  groq_model : string;
  mcp_url : string;
  max_iterations : Z;
  agent_timeout : Z;
  memory_window_size : Z;
  connect_timeout : Z;
  verbose : bool
}.

Record ChatGroq := mkChatGroq {
  llm_model : string;
  llm_timeout : Z;
  llm_callbacks : bool
}.

(* ------------------------------------------------------------------ *)
(** ** Conversation memory *)

Module ConversationMemory.

(** Modelled from the spec: the class [ConversationBufferWindowMemory] that
    [connect] instantiates is imported from LangChain and its code is not
    part of the client.  The specification describes the memory as an
    ordered buffer of exchanges of capacity [W] whose [append] keeps the
    length at most [2 * W] by evicting the oldest pair; [save_context]
    stores the user text and then the assistant text.  [buffer] is the
    attribute [query] reads. *)
Record t := mk { k : Z; buffer : list Message }.

Definition new (W : Z) : t := mk W [].

Definition append (m : t) (e : Message) : t :=
  let l := buffer m ++ [e] in
  mk (k m) (if (2 * k m <? Z.of_nat (List.length l))%Z then skipn 2 l else l).

Definition save_context (m : t) (input output : string) : t :=
  append (append m (HumanMessage input)) (AIMessage output []).

End ConversationMemory.

(* ------------------------------------------------------------------ *)
(** ** The client *)

(** Calls that leave the client, in the order they are made. *)
Inductive ExternalCall :=
| GetTools
| CreateAgent (tools : list Tool)
| AStream (messages : list Message).

Record MCPClient := mkClient {
  config : ClientConfig;
  llm_base : option ChatGroq;
  llm : option ChatGroq;
  mcp : option string;
  agent : option Agent;
  memory : option ConversationMemory.t;
  tools : list Tool;
  (** ghost: the external calls made through this client so far *)
  calls : list ExternalCall
}.

(** [MCPClient.__init__] *)
Definition init (cfg : ClientConfig) : MCPClient :=
  mkClient cfg None None None None None [] [].

Definition set_memory (self : MCPClient) (m : option ConversationMemory.t) : MCPClient :=
  mkClient (config self) (llm_base self) (llm self) (mcp self) (agent self)
           m (tools self) (calls self).

Definition log_call (self : MCPClient) (c : ExternalCall) : MCPClient :=
  mkClient (config self) (llm_base self) (llm self) (mcp self) (agent self)
           (memory self) (tools self) (calls self ++ [c]).

(** *** connect *)

(** The collaborators [connect] talks to: the tool provider's answer to
    [get_tools] (a timeout is an exception) and [create_react_agent], after
    its keyword fallbacks. *)
Record Services := mkServices {
  get_tools : outcome (list Tool);
  create_react_agent : list Tool -> outcome Agent
}.

Definition connect_failed (e : PyException) : PyException :=
  RuntimeError ("Failed to connect client: " ++ exc_str e)%string.

Definition connect (env : Services) (self : MCPClient) : outcome unit * MCPClient :=
  let cfg := config self in
  if negb (PyStr.truthy (groq_api_key cfg)) then
    (Raised (connect_failed (RuntimeError
       "GROQ_API_KEY is missing. Set environment variable GROQ_API_KEY.")), self)
  else
    let base := mkChatGroq (groq_model cfg) (agent_timeout cfg) (verbose cfg) in
    let self1 :=
      mkClient cfg (Some base) (llm self) (Some (mcp_url cfg)) (agent self)
               (Some (ConversationMemory.new (memory_window_size cfg)))
               (tools self) (calls self ++ [GetTools]) in
    match get_tools env with
    | Raised e => (Raised (connect_failed e), self1)
    | Returned base_tools =>
        let self2 :=
          mkClient cfg (llm_base self1) (llm_base self1) (mcp self1) (agent self1)
                   (memory self1) base_tools
                   (calls self1 ++ [CreateAgent base_tools]) in
        match create_react_agent env base_tools with
        | Raised e => (Raised (connect_failed e), self2)
        | Returned a =>
            (Returned tt,
             mkClient cfg (llm_base self2) (llm self2) (mcp self2) (Some a)
                      (memory self2) (tools self2) (calls self2))
        end
    end.

(** *** query *)

Definition greetings : list string := ["hi"; "hello"; "hey"; "hi there"].

Definition greeting_response : string :=
  ("Hello! I'm your Assistant. I can help you search the internet, "
   ++ "get the current time, perform calculations, and more. "
   ++ "What would you like to know?")%string.

(** [query.lower().strip() in {"hi", "hello", "hey", "hi there"}] *)
Definition is_greeting (query : string) : bool :=
  existsb (String.eqb (PyStr.strip (PyStr.lower query))) greetings.

(** The messages handed to the agent: the memory's recent buffer, then the
    new user message. *)
Definition build_messages (self : MCPClient) (query : string) : list Message :=
  let history :=
    match memory self with
    | Some m =>
        match ConversationMemory.buffer m with
        | [] => []
        | b => PyStr.last_slice (memory_window_size (config self)) b
        end
    | None => []
    end in
  history ++ [HumanMessage query].

(** The locals the streaming loop updates: [intermediate_steps] and
    [final_messages]. *)
Definition LoopState := (list Step * list Message)%type.

Definition preview_bound : nat := 200.

Definition on_tool_message (steps : list Step) (msg : Message) : list Step :=
  match msg with
  | ToolMessage name c => steps ++ [mkStep name (PyStr.take preview_bound c)]
  | _ => steps
  end.

Definition on_node (st : LoopState) (item : string * NodeOutput) : LoopState :=
  let '(steps, final_messages) := st in
  let '(node_name, node_output) := item in
  if String.eqb node_name "agent" then
    let agent_messages := get_messages node_output in
    (steps, final_messages ++ agent_messages)
  else if PyStr.startswith "tools" node_name then
    let tool_messages := get_messages node_output in
    (fold_left on_tool_message tool_messages steps,
     final_messages ++ tool_messages)
  else st.

Definition on_chunk (verbose : bool) (st : LoopState) (chunk : Chunk) : LoopState :=
  if verbose then fold_left on_node chunk st else st.

Definition consume (verbose : bool) (cs : list Chunk) : LoopState :=
  fold_left (on_chunk verbose) cs ([], []).

(** The [for msg in reversed(final_messages)] loop: the content of the first
    [AIMessage] without tool calls, met from the end; [""] when there is
    none. *)
Fixpoint last_ai_reply (reversed : list Message) : string :=
  match reversed with
  | [] => ""
  | AIMessage c [] :: _ => c
  | _ :: rest => last_ai_reply rest
  end.

Definition extract_response (final_messages : list Message) : string :=
  match final_messages with
  | [] => ""
  | _ =>
      let response_text := last_ai_reply (rev final_messages) in
      if PyStr.truthy response_text then response_text
      else content (last final_messages (HumanMessage ""))
  end.

(** [if self.memory: self.memory.save_context({"input": query},
    {"output": response_text})] *)
Definition update_memory (self : MCPClient) (query response_text : string)
  : MCPClient :=
  match memory self with
  | Some m =>
      set_memory self
        (Some (ConversationMemory.save_context m query response_text))
  | None => self
  end.

Definition not_connected : PyException :=
  RuntimeError "Client not connected. Call connect() first.".

Definition query (self : MCPClient) (query : string)
  : outcome QueryResult * MCPClient :=
  match agent self with
  | None => (Raised not_connected, self)
  | Some ag =>
      if is_greeting query then
        (Returned (Success greeting_response []), self)
      else
        let messages := build_messages self query in
        let run := ag (List.length (calls self)) messages in
        let self1 := log_call self (AStream messages) in
        let '(intermediate_steps, final_messages) :=
          consume (verbose (config self)) (chunks run) in
        match raised run with
        | Some e => (Returned (Error ("Query failed: " ++ exc_str e)%string), self1)
        | None =>
            let response_text := extract_response final_messages in
            (Returned (Success response_text intermediate_steps),
             update_memory self1 query response_text)
        end
  end.

(** A run of [query] after [query], from left to right; the outcomes are
    dropped and the client is kept. *)
Definition run_queries (self : MCPClient) (qs : list string) : MCPClient :=
  fold_left (fun c q => snd (query c q)) qs self.

(* ------------------------------------------------------------------ *)
(** ** The specification's vocabulary *)

(** The step events of the specification, and the chunk LangGraph's ReAct
    agent streams for each: an agent turn is one [AIMessage] from the
    ["agent"] node, a tool result one [ToolMessage] from the ["tools"]
    node. *)
Inductive StepEvent :=
| AgentTurn (text : string) (requestedTools : list ToolCall)
| ToolResult (toolName : string) (rawResult : string).

Definition chunk_of_event (e : StepEvent) : Chunk :=
  match e with
  | AgentTurn t r => [("agent", Some [AIMessage t r])]
  | ToolResult n c => [("tools", Some [ToolMessage n c])]
  end.

Definition stream_of (events : list StepEvent) : list Chunk :=
  map chunk_of_event events.

(** The aggregator's [lastNonToolAgentText] as the specification words it
    (4.4, steps 1 and 2): initially empty, overwritten by every agent turn
    that carries no tool requests and has non-empty text. *)
Definition spec_lastNonToolAgentText (events : list StepEvent) : string :=
  fold_left
    (fun acc e =>
       match e with
       | AgentTurn t [] => if PyStr.truthy t then t else acc
       | _ => acc
       end)
    events "".

(** The agent, invoked by [query self q], streams [cs] and ends normally. *)
Definition streams (self : MCPClient) (q : string) (cs : list Chunk) : Prop :=
  exists ag,
    agent self = Some ag /\ is_greeting q = false /\
    ag (List.length (calls self)) (build_messages self q) = mkRun cs None.

(** [query self q] succeeds with response [t]. *)
Definition answers (self : MCPClient) (q t : string) : Prop :=
  exists steps, fst (query self q) = Returned (Success t steps).

(** The messages a verbose run accumulates in [final_messages]. *)
Definition node_messages (item : string * NodeOutput) : list Message :=
  if String.eqb (fst item) "agent" then get_messages (snd item)
  else if PyStr.startswith "tools" (fst item) then get_messages (snd item)
  else [].

Definition streamed (cs : list Chunk) : list Message :=
  flat_map (flat_map node_messages) cs.

(** The tool messages a verbose run turns into trace entries. *)
Definition node_tool_messages (item : string * NodeOutput) : list Message :=
  if String.eqb (fst item) "agent" then []
  else if PyStr.startswith "tools" (fst item) then get_messages (snd item)
  else [].

Definition tool_messages_of (cs : list Chunk) : list Message :=
  flat_map (flat_map node_tool_messages) cs.

(** An [AIMessage] without tool calls: what the extraction loop stops at. *)
Definition is_final_ai (m : Message) : bool :=
  match m with AIMessage _ [] => true | _ => false end.

(** The message the stream carries for an event. *)
Definition message_of_event (e : StepEvent) : Message :=
  match e with
  | AgentTurn t r => AIMessage t r
  | ToolResult n c => ToolMessage n c
  end.

Definition is_tool_message (m : Message) : bool :=
  match m with ToolMessage _ _ => true | _ => false end.

(** The trace entries the loop appends for a list of messages of a tools
    node, in order. *)
Definition trace_entries (msgs : list Message) : list Step :=
  flat_map
    (fun m =>
       match m with
       | ToolMessage n c => [mkStep n (PyStr.take preview_bound c)]
       | _ => []
       end)
    msgs.

(** [st] is the trace entry of the tool message [m]: same tool name, the
    result cut after [preview_bound] characters and nothing added. *)
Definition trace_entry_for (m : Message) (st : Step) : Prop :=
  match m with
  | ToolMessage n raw =>
      tool st = n
      /\ String.length (result st) <= preview_bound
      /\ (String.length raw <= preview_bound -> result st = raw)
      /\ (preview_bound < String.length raw ->
          result st = PyStr.take preview_bound raw
          /\ String.length (result st) = preview_bound)
  | _ => False
  end.

(** The memory of [self] exists, has window [W] and holds at most [2 * W]
    messages. *)
Definition memory_within (W : Z) (self : MCPClient) : Prop :=
  exists m,
    memory self = Some m /\ ConversationMemory.k m = W
    /\ (Z.of_nat (List.length (ConversationMemory.buffer m)) <= 2 * W)%Z.

(* ------------------------------------------------------------------ *)
(** ** Concrete clients *)

Definition example_config (v : bool) (W : Z) : ClientConfig :=
  mkConfig "gsk_test" "llama-3.3-70b-versatile" "http://127.0.0.1:8000/mcp"
           6 90 W 12 v.

Definition example_tools : list Tool :=
  [mkTool "get_time" "Get the current time";
   mkTool "calculate" "Evaluate an expression";
   mkTool "web_search" "Search the web"].

(** Services whose agent plays the same run at every call. *)
Definition scripted_services (run : AgentRun) : Services :=
  mkServices (Returned example_tools) (fun _ => Returned (fun _ _ => run)).

(** A client connected to them. *)
Definition scripted (v : bool) (W : Z) (run : AgentRun) : MCPClient :=
  snd (connect (scripted_services run) (init (example_config v W))).

Definition completed (cs : list Chunk) : AgentRun := mkRun cs None.

Definition failing (e : PyException) : AgentRun := mkRun [] (Some e).

(* ------------------------------------------------------------------ *)
(** ** The logging callback handler ([VerboseCallbackHandler]) *)

Module Handler.

(** The [serialized] dict the callbacks receive: only its ["name"] and
    ["id"] keys are read. *)
Record Serialized := mkSerialized {
  s_name : option string;
  s_id : option (list string)
}.

(** [l[-1]] *)
Definition last_item (l : list string) : outcome string :=
  match l with
  | [] => Raised (mkExc "IndexError" "list index out of range")
  | x :: l' => Returned (last l' x)
  end.

(** [serialized.get("name", serialized.get("id", ["unknown"])[-1])], as
    [on_tool_start] and [on_chain_start] compute it: the default is
    evaluated before the outer [get] looks at ["name"]. *)
Definition serialized_name (serialized : Serialized) : outcome string :=
  match last_item (match s_id serialized with Some l => l | None => ["unknown"] end) with
  | Raised e => Raised e
  | Returned default =>
      Returned (match s_name serialized with Some n => n | None => default end)
  end.

(** [output[:500] + "..." if len(output) > 500 else output] *)
Definition output_preview (output : string) : string :=
  if (500 <? String.length output)%nat
  then (PyStr.take 500 output ++ "...")%string
  else output.

(** [on_tool_end]: the preview written to the log, if any. *)
Definition on_tool_end (verbose : bool) (output : string) : option string :=
  if verbose then Some (output_preview output) else None.

End Handler.

(* ------------------------------------------------------------------ *)
(** ** The tool server ([MCP_server.py]) *)

Module Server.

(** [os.environ] *)
Definition Environ := string -> option string.

(** [os.getenv(name, default)] *)
Definition getenv (env : Environ) (name default : string) : string :=
  match env name with Some v => v | None => default end.

Definition _env_required (env : Environ) (name : string) : outcome string :=
  let val := PyStr.strip (getenv env name "") in
  if negb (PyStr.truthy val)
  then Raised (RuntimeError ("Missing required env var: " ++ name)%string)
  else Returned val.

(** *** calculate *)

Definition allowed_chars : list ascii :=
  list_ascii_of_string "0123456789+-*/()., ".

(** [all(c in allowed_chars for c in expression)] *)
Definition all_allowed (expression : string) : bool :=
  forallb (fun c => existsb (Ascii.eqb c) allowed_chars)
          (list_ascii_of_string expression).

(** The dict [calculate] returns; [V] is the type of evaluated values. *)
Inductive CalcResult (V : Type) : Type :=
| CalcSuccess (expression : string) (result : V)
| CalcError (error : string).
Arguments CalcSuccess {V} expression result.
Arguments CalcError {V} error.

(** [py_eval] stands for [eval(expression, {"__builtins__": {}}, {})]: it
    returns a value or raises. *)
Definition calculate {V : Type} (py_eval : string -> outcome V)
           (expression : string) : CalcResult V :=
  if negb (all_allowed expression) then
    CalcError "Expression contains invalid characters. Only basic math operations are allowed."
  else
    match py_eval expression with
    | Returned result => CalcSuccess expression result
    | Raised e => CalcError ("Calculation failed: " ++ exc_str e)%string
    end.

(** *** web_search *)











End Server.

(* ------------------------------------------------------------------ *)
(** ** The chat page ([streamlit_app.py]) *)

Module App.

(** An entry of [st.session_state.messages]; error entries carry no
    ["steps"] key. *)
Record ChatMessage := mkChat {
  role : string;
  chat_content : string;
  steps : option (list Step)
}.

(** [st.session_state] *)
Record Session := mkSession {
  client : option MCPClient;
  connected : bool;
  messages : list ChatMessage;
  tools_available : list string
}.

Definition initial : Session := mkSession None false [] [].

(** [connect_client]; [cfg] is what [ClientConfig()] reads from the
    environment at that moment. *)
Definition connect_client (cfg : ClientConfig) (env : Services) (s : Session)
  : bool * Session :=
  match client s with
  | None =>
      match connect env (init cfg) with
      | (Returned _, c) =>
          (true, mkSession (Some c) true (messages s) (map tool_name (tools c)))
      | (Raised _, _) => (false, s)
      end
  | Some _ => (connected s, s)
  end.

Definition set_client (s : Session) (c : MCPClient) : Session :=
  mkSession (Some c) (connected s) (messages s) (tools_available s).

Definition add_message (s : Session) (m : ChatMessage) : Session :=
  mkSession (client s) (connected s) (messages s ++ [m]) (tools_available s).

(** [get_response] *)
Definition get_response (s : Session) (q : string) : QueryResult * Session :=
  if negb (connected s) then (Error "Client not connected", s)
  else
    match client s with
    | None => (Error "'NoneType' object has no attribute 'query'", s)
    | Some c =>
        match query c q with
        | (Returned response, c') => (response, set_client s c')
        | (Raised e, c') => (Error (exc_str e), set_client s c')
        end
    end.

(** The Connect button (lines 115-122). *)
Definition connect_button (cfg : ClientConfig) (env : Services) (s : Session)
  : Session :=
  match client s, connected s with
  | Some _, true => s
  | _, _ => snd (connect_client cfg env s)
  end.

(** The Disconnect button (lines 125-129). *)
Definition disconnect_button (s : Session) : Session :=
  mkSession None false [] (tools_available s).

(** The Clear Chat History button (lines 141-143). *)
Definition clear_button (s : Session) : Session :=
  mkSession (client s) (connected s) [] (tools_available s).

(** The connection attempt on page load (lines 152-160). *)
Definition auto_connect (cfg : ClientConfig) (env : Services) (s : Session)
  : Session :=
  if negb (connected s) then
    match client s with
    | None => snd (connect_client cfg env s)
    | Some _ => s
    end
  else s.

(** The chat input (lines 173-211). *)
Definition chat_input (s : Session) (prompt : string) : Session :=
  if negb (connected s) then s
  else
    let s1 := add_message s (mkChat "user" prompt None) in
    let '(response, s2) := get_response s1 prompt in
    match response with
    | Success assistant_response intermediate_steps =>
        add_message s2 (mkChat "assistant" assistant_response
                               (Some intermediate_steps))
    | Error error_msg =>
        add_message s2 (mkChat "assistant" ("Error: " ++ error_msg)%string None)
    end.

(** What the user can do on the page. *)
Inductive UIEvent :=
| PageLoad (cfg : ClientConfig) (env : Services)
| ConnectButton (cfg : ClientConfig) (env : Services)
| DisconnectButton
| ClearButton
| ChatInput (prompt : string).

Definition step (s : Session) (ev : UIEvent) : Session :=
  match ev with
  | PageLoad cfg env => auto_connect cfg env s
  | ConnectButton cfg env => connect_button cfg env s
  | DisconnectButton => disconnect_button s
  | ClearButton => clear_button s
  | ChatInput prompt => chat_input s prompt
  end.

Definition run (evs : list UIEvent) : Session := fold_left step evs initial.

(** The session is usable: when it says connected, it holds a client with
    an agent. *)
Definition usable (s : Session) : Prop :=
  connected s = true -> exists c ag, client s = Some c /\ agent c = Some ag.


End App.

(* ------------------------------------------------------------------ *)
(** ** Unfolding [query] along its four paths *)

Section QueryPaths.

Variable self : MCPClient.
Variable q : string.

Lemma query_not_connected :
  agent self = None -> query self q = (Raised not_connected, self).
Proof. intros H. unfold query. now rewrite H. Qed.

Lemma query_greeting ag :
  agent self = Some ag -> is_greeting q = true ->
  query self q = (Returned (Success greeting_response []), self).
Proof. intros H G. unfold query. now rewrite H, G. Qed.

Lemma query_run ag :
  agent self = Some ag -> is_greeting q = false ->
  query self q =
    let messages := build_messages self q in
    let run := ag (List.length (calls self)) messages in
    let self1 := log_call self (AStream messages) in
    let st := consume (verbose (config self)) (chunks run) in
    match raised run with
    | Some e => (Returned (Error ("Query failed: " ++ exc_str e)%string), self1)
    | None =>
        (Returned (Success (extract_response (snd st)) (fst st)),
         update_memory self1 q (extract_response (snd st)))
    end.
Proof.
  intros H G. unfold query. rewrite H, G. cbv zeta.
  destruct (consume _ _) as [steps finals]. reflexivity.
Qed.

Lemma query_streams cs :
  streams self q cs ->
  query self q =
    let st := consume (verbose (config self)) cs in
    (Returned (Success (extract_response (snd st)) (fst st)),
     update_memory (log_call self (AStream (build_messages self q))) q
                   (extract_response (snd st))).
Proof.
  intros (ag & H & G & R). rewrite (query_run ag H G). cbv zeta.
  rewrite R. reflexivity.
Qed.

End QueryPaths.

Lemma memory_log_call self c : memory (log_call self c) = memory self.
Proof. reflexivity. Qed.

Lemma agent_log_call self c : agent (log_call self c) = agent self.
Proof. reflexivity. Qed.

Lemma consume_quiet cs : consume false cs = ([], []).
Proof.
  unfold consume. generalize (@nil Step, @nil Message).
  induction cs as [|c cs IH]; intros st; simpl; auto.
Qed.

(* ------------------------------------------------------------------ *)
(** ** Exceptions at the boundary of [query] *)

(** C1, as the specification states it, fails: a [query] on a client that
    never connected raises to the caller instead of returning an error
    result. *)
Lemma unconnected_query_raises :
  fst (query (init (example_config true 8)) "what time is it")
    = Raised not_connected
  /\ ~ (exists r, fst (query (init (example_config true 8)) "what time is it")
                  = Returned r).
Proof.
  split; [reflexivity|]. intros [r H]. discriminate H.
Qed.

(** C1 (amended): on a connected client [query] always returns a result and
    an exception raised by the agent run becomes
    [{status: error, message: "Query failed: " + str(e)}]; before [connect]
    it raises [RuntimeError("Client not connected. Call connect() first.")]
    to the caller and leaves the client untouched. *)
Theorem query_exception_boundary :
  (forall self q, agent self <> None ->
     exists r, fst (query self q) = Returned r)
  /\ (forall self q ag e,
        agent self = Some ag -> is_greeting q = false ->
        raised (ag (List.length (calls self)) (build_messages self q)) = Some e ->
        fst (query self q)
          = Returned (Error ("Query failed: " ++ exc_str e)%string))
  /\ (forall self q, agent self = None ->
        query self q = (Raised not_connected, self)).
Proof.
  split; [|split].
  - intros self q Hc. destruct (agent self) as [ag|] eqn:Ha; [|congruence].
    destruct (is_greeting q) eqn:G.
    + rewrite (query_greeting self q ag Ha G). simpl. eauto.
    + rewrite (query_run self q ag Ha G). cbv zeta.
      destruct (raised _); simpl; eauto.
  - intros self q ag e Ha G R. rewrite (query_run self q ag Ha G). cbv zeta.
    now rewrite R.
  - intros self q. apply query_not_connected.
Qed.

Lemma query_exception_boundary_witness :
  fst (query (scripted true 8 (failing (mkExc "TimeoutError" "timed out")))
             "what time is it")
    = Returned (Error "Query failed: timed out").
Proof.
  apply (proj1 (proj2 query_exception_boundary)
           (scripted true 8 (failing (mkExc "TimeoutError" "timed out")))
           "what time is it"
           (fun _ _ => failing (mkExc "TimeoutError" "timed out"))
           (mkExc "TimeoutError" "timed out"));
    reflexivity.
Defined.

(* ------------------------------------------------------------------ *)
(** ** Greeting fast path *)

Lemma is_greeting_In q :
  In (PyStr.strip (PyStr.lower q)) greetings -> is_greeting q = true.
Proof.
  intros H. unfold is_greeting. apply existsb_exists.
  exists (PyStr.strip (PyStr.lower q)). split; [assumption|].
  apply String.eqb_refl.
Qed.

(** C10: on a connected client, an input whose lower-cased, stripped text is
    one of the greeting tokens gets the canned success response with an empty
    step trace, and the client is left as it was: no call to the agent is
    made and nothing is stored.  ["hi"], ["Hello"] and ["  HEY  "] are such
    inputs. *)
Theorem greeting_fast_path (self : MCPClient) (q : string) :
  agent self <> None ->
  In (PyStr.strip (PyStr.lower q)) greetings ->
  query self q = (Returned (Success greeting_response []), self)
  /\ calls (snd (query self q)) = calls self
  /\ query self "hi" = (Returned (Success greeting_response []), self)
  /\ query self "Hello" = (Returned (Success greeting_response []), self)
  /\ query self "  HEY  " = (Returned (Success greeting_response []), self).
Proof.
  intros Hc Hg. destruct (agent self) as [ag|] eqn:Ha; [|congruence].
  assert (G : forall s, In (PyStr.strip (PyStr.lower s)) greetings ->
                        query self s = (Returned (Success greeting_response []), self)).
  { intros s Hs. apply (query_greeting self s ag Ha). now apply is_greeting_In. }
  rewrite (G q Hg). repeat split; apply G; vm_compute; tauto.
Qed.

Lemma greeting_fast_path_witness :
  query (scripted true 8 (completed [])) "Hi There"
    = (Returned (Success greeting_response []), scripted true 8 (completed [])).
Proof.
  apply (greeting_fast_path (scripted true 8 (completed [])) "Hi There").
  - vm_compute. discriminate.
  - vm_compute. tauto.
Defined.

(* ------------------------------------------------------------------ *)
(** ** Memory is written on the success path only *)

Lemma query_memory_cases self q o self' :
  query self q = (o, self') ->
  memory self' = memory self
  \/ exists m r steps,
       o = Returned (Success r steps) /\ is_greeting q = false
       /\ memory self = Some m
       /\ memory self' = Some (ConversationMemory.save_context m q r).
Proof.
  intros H. destruct (agent self) as [ag|] eqn:Ha.
  - destruct (is_greeting q) eqn:G.
    + rewrite (query_greeting self q ag Ha G) in H.
      injection H as <- <-. now left.
    + rewrite (query_run self q ag Ha G) in H. cbv zeta in H.
      destruct (raised _).
      * injection H as <- <-. left. apply memory_log_call.
      * injection H as <- <-. unfold update_memory.
        rewrite memory_log_call.
        destruct (memory self) as [m|] eqn:Hm.
        -- right. exists m. eexists. eexists. repeat split.
        -- left. simpl. exact Hm.
  - rewrite (query_not_connected self q Ha) in H.
    injection H as <- <-. now left.
Qed.

(** C5: a [query] that returns an error result leaves the conversation memory
    exactly as it was; whenever the memory changes, the call returned
    success and the change is one [save_context] of the query and the
    response. *)
Theorem failed_query_keeps_memory :
  (forall self q msg self',
     query self q = (Returned (Error msg), self') ->
     memory self' = memory self)
  /\ (forall self q o self',
        query self q = (o, self') ->
        memory self' = memory self
        \/ exists m r steps,
             o = Returned (Success r steps) /\ memory self = Some m
             /\ memory self' = Some (ConversationMemory.save_context m q r)).
Proof.
  split.
  - intros self q msg self' H.
    destruct (query_memory_cases _ _ _ _ H) as [E|(m & r & st & E & _)];
      [exact E|discriminate E].
  - intros self q o self' H.
    destruct (query_memory_cases _ _ _ _ H) as [E|(m & r & st & E & _ & Hm & Hm')];
      [now left|right; exists m, r, st; auto].
Qed.

Lemma failed_query_keeps_memory_witness :
  memory (snd (query (scripted true 8 (failing (RuntimeError "connection reset")))
                     "what time is it"))
    = memory (scripted true 8 (failing (RuntimeError "connection reset"))).
Proof.
  apply (proj1 failed_query_keeps_memory
           (scripted true 8 (failing (RuntimeError "connection reset")))
           "what time is it" "Query failed: connection reset").
  reflexivity.
Defined.

(* ------------------------------------------------------------------ *)
(** ** Runs without verbose logging, and empty streams *)

(** C6: with [verbose] off, a non-greeting query whose stream ends normally
    returns success with the empty response and no steps, whatever was
    streamed. *)
Theorem quiet_run_returns_empty (self : MCPClient) (q : string) (cs : list Chunk) :
  verbose (config self) = false ->
  streams self q cs ->
  fst (query self q) = Returned (Success "" []).
Proof.
  intros V S. rewrite (query_streams self q cs S). cbv zeta.
  rewrite V, consume_quiet. reflexivity.
Qed.

Lemma quiet_run_returns_empty_witness :
  fst (query (scripted false 8
                (completed (stream_of [AgentTurn "It is noon." []])))
             "what time is it")
    = Returned (Success "" []).
Proof.
  apply (quiet_run_returns_empty _ _ (stream_of [AgentTurn "It is noon." []])).
  - reflexivity.
  - exists (fun _ _ => completed (stream_of [AgentTurn "It is noon." []])).
    repeat split.
Defined.

(** C4, as the specification states it, fails: a stream without events is
    reported as a success with an empty response, not as an error. *)
Lemma empty_stream_not_an_error :
  fst (query (scripted true 8 (completed [])) "what time is it")
    = Returned (Success "" [])
  /\ forall msg,
       fst (query (scripted true 8 (completed [])) "what time is it")
         <> Returned (Error msg).
Proof.
  split; [reflexivity|]. intros msg H. discriminate H.
Qed.

(** C4 (amended): when the stream of a non-greeting query produces no chunk
    at all, [query] returns status success with the empty response and an
    empty step trace, and stores the query with the empty response in
    memory. *)
Theorem empty_stream_is_success (self : MCPClient) (q : string) :
  streams self q [] ->
  query self q
    = (Returned (Success "" []),
       update_memory (log_call self (AStream (build_messages self q))) q "").
Proof.
  intros S. rewrite (query_streams self q [] S). cbv zeta.
  destruct (verbose (config self)); reflexivity.
Qed.

Lemma empty_stream_is_success_witness :
  fst (query (scripted false 2 (completed [])) "tell me a joke")
    = Returned (Success "" []).
Proof.
  rewrite (empty_stream_is_success (scripted false 2 (completed [])) "tell me a joke").
  - reflexivity.
  - exists (fun _ _ => completed []). repeat split.
Defined.

(* ------------------------------------------------------------------ *)
(** ** What the streaming loop accumulates *)

Lemma trace_entries_app a b :
  trace_entries (a ++ b) = trace_entries a ++ trace_entries b.
Proof. apply flat_map_app. Qed.

Lemma fold_on_tool_message msgs : forall steps,
  fold_left on_tool_message msgs steps = steps ++ trace_entries msgs.
Proof.
  induction msgs as [|m msgs IH]; intros steps; simpl.
  - now rewrite app_nil_r.
  - rewrite IH. destruct m; simpl; try reflexivity.
    now rewrite <- app_assoc.
Qed.

Lemma on_node_spec steps finals item :
  on_node (steps, finals) item
    = (steps ++ trace_entries (node_tool_messages item),
       finals ++ node_messages item).
Proof.
  destruct item as [name o]. unfold on_node, node_tool_messages, node_messages.
  simpl fst; simpl snd.
  destruct (String.eqb name "agent").
  - simpl. now rewrite app_nil_r.
  - destruct (PyStr.startswith "tools" name).
    + now rewrite fold_on_tool_message.
    + simpl. now rewrite !app_nil_r.
Qed.

Lemma fold_on_node chunk : forall steps finals,
  fold_left on_node chunk (steps, finals)
    = (steps ++ trace_entries (flat_map node_tool_messages chunk),
       finals ++ flat_map node_messages chunk).
Proof.
  induction chunk as [|item chunk IH]; intros steps finals;
    cbn [fold_left flat_map].
  - now rewrite !app_nil_r.
  - rewrite on_node_spec, IH, trace_entries_app, <- !app_assoc. reflexivity.
Qed.

Lemma fold_on_chunk cs : forall steps finals,
  fold_left (on_chunk true) cs (steps, finals)
    = (steps ++ trace_entries (tool_messages_of cs), finals ++ streamed cs).
Proof.
  unfold tool_messages_of, streamed.
  induction cs as [|c cs IH]; intros steps finals;
    cbn [fold_left flat_map].
  - now rewrite !app_nil_r.
  - unfold on_chunk at 2. rewrite fold_on_node, IH, trace_entries_app, <- !app_assoc.
    reflexivity.
Qed.

Lemma consume_verbose cs :
  consume true cs = (trace_entries (tool_messages_of cs), streamed cs).
Proof. unfold consume. now rewrite fold_on_chunk. Qed.

Lemma streamed_stream_of events :
  streamed (stream_of events) = map message_of_event events.
Proof.
  unfold streamed, stream_of.
  induction events as [|e events IH]; simpl; [reflexivity|].
  rewrite IH. destruct e; reflexivity.
Qed.

Lemma tool_messages_stream_of events :
  tool_messages_of (stream_of events)
    = filter is_tool_message (map message_of_event events).
Proof.
  unfold tool_messages_of, stream_of.
  induction events as [|e events IH]; simpl; [reflexivity|].
  rewrite IH. destruct e; reflexivity.
Qed.

(** A verbose run that ends normally. *)
Lemma query_verbose self q cs :
  verbose (config self) = true -> streams self q cs ->
  fst (query self q)
    = Returned (Success (extract_response (streamed cs))
                        (trace_entries (tool_messages_of cs))).
Proof.
  intros V S. rewrite (query_streams self q cs S). cbv zeta.
  rewrite V, consume_verbose. reflexivity.
Qed.

(* ------------------------------------------------------------------ *)
(** ** Extraction of the final response *)

Lemma last_ai_reply_skip l1 : forall l2,
  (forall m, In m l1 -> is_final_ai m = false) ->
  last_ai_reply (l1 ++ l2) = last_ai_reply l2.
Proof.
  induction l1 as [|m l1 IH]; intros l2 H; [reflexivity|].
  assert (Hm : is_final_ai m = false) by (apply H; now left).
  simpl. destruct m as [c|c [|tc tcs]|n c]; try discriminate Hm;
    apply IH; intros m' Hin; apply H; now right.
Qed.

Lemma last_ai_reply_found pre t post :
  (forall m, In m post -> is_final_ai m = false) ->
  last_ai_reply (rev (pre ++ AIMessage t [] :: post)) = t.
Proof.
  intros H. rewrite rev_app_distr. simpl. rewrite <- app_assoc.
  rewrite last_ai_reply_skip; [reflexivity|].
  intros m Hin. apply H. now apply in_rev.
Qed.

Lemma last_ai_reply_origin l :
  last_ai_reply l = "" \/ In (AIMessage (last_ai_reply l) []) l.
Proof.
  induction l as [|m l IH]; [now left|].
  destruct m as [c|c [|tc tcs]|n c]; simpl;
    try (destruct IH as [E|E]; [now left|now right; right]).
  right. now left.
Qed.

Lemma truthy_nonempty s : s <> "" -> PyStr.truthy s = true.
Proof. destruct s; [congruence|reflexivity]. Qed.

Lemma extract_response_last_wins pre t post :
  (forall m, In m post -> is_final_ai m = false) -> t <> "" ->
  extract_response (pre ++ AIMessage t [] :: post) = t.
Proof.
  intros H Ht. unfold extract_response.
  destruct (pre ++ AIMessage t [] :: post) eqn:E.
  - destruct pre; discriminate E.
  - rewrite <- E, (last_ai_reply_found pre t post H), (truthy_nonempty t Ht).
    reflexivity.
Qed.

Lemma extract_response_fallback msgs :
  (forall c, In (AIMessage c []) msgs -> c = "") -> msgs <> [] ->
  extract_response msgs = content (last msgs (HumanMessage "")).
Proof.
  intros H Hne. unfold extract_response.
  destruct msgs as [|m msgs]; [congruence|].
  assert (E : last_ai_reply (rev (m :: msgs)) = "").
  { destruct (last_ai_reply_origin (rev (m :: msgs))) as [E|E]; [exact E|].
    apply H. now apply in_rev. }
  rewrite E. reflexivity.
Qed.

(* ------------------------------------------------------------------ *)
(** ** Last-wins rule *)

(** C2, as the specification states it, fails: when the latest agent turn
    without tool requests has empty text, an earlier non-empty one is not
    used.  The specification's aggregator answers ["A"] here; [query]
    answers the empty string. *)
Lemma empty_final_turn_shadows_earlier :
  spec_lastNonToolAgentText [AgentTurn "A" []; AgentTurn "" []] = "A"
  /\ fst (query (scripted true 8
                   (completed (stream_of [AgentTurn "A" []; AgentTurn "" []])))
                "what time is it")
     = Returned (Success "" [])
  /\ ~ answers (scripted true 8
                  (completed (stream_of [AgentTurn "A" []; AgentTurn "" []])))
               "what time is it" "A".
Proof.
  split; [reflexivity|]. split; [reflexivity|].
  intros [steps H]. discriminate H.
Qed.

(** C2 (amended): with verbose logging on and a stream that ends normally,
    the final response is the text of the latest agent turn that carries no
    tool requests, provided that text is non-empty; in particular the stream
    [AgentTurn("A"), ToolResult(x), AgentTurn("B")], with no tool requests on
    A or B, yields ["B"]. *)
Theorem last_final_turn_wins (self : MCPClient) (q : string) (cs : list Chunk) :
  verbose (config self) = true ->
  streams self q cs ->
  (forall pre t post,
     streamed cs = pre ++ AIMessage t [] :: post ->
     (forall m, In m post -> is_final_ai m = false) ->
     t <> "" ->
     answers self q t)
  /\ (forall n x,
        cs = stream_of [AgentTurn "A" []; ToolResult n x; AgentTurn "B" []] ->
        answers self q "B").
Proof.
  intros V S.
  assert (G : forall pre t post,
             streamed cs = pre ++ AIMessage t [] :: post ->
             (forall m, In m post -> is_final_ai m = false) ->
             t <> "" -> answers self q t).
  { intros pre t post E H Ht. unfold answers.
    rewrite (query_verbose self q cs V S), E.
    rewrite (extract_response_last_wins pre t post H Ht). eauto. }
  split; [exact G|].
  intros n x E. subst cs.
  apply (G [AIMessage "A" []; ToolMessage n x] "B" []).
  - reflexivity.
  - intros m [].
  - discriminate.
Qed.

Lemma last_final_turn_wins_witness :
  answers (scripted true 8
             (completed (stream_of [AgentTurn "A" [];
                                    ToolResult "get_time" "12:00";
                                    AgentTurn "B" []])))
          "what time is it" "B".
Proof.
  apply (proj2 (last_final_turn_wins
                  (scripted true 8
                     (completed (stream_of [AgentTurn "A" [];
                                            ToolResult "get_time" "12:00";
                                            AgentTurn "B" []])))
                  "what time is it"
                  (stream_of [AgentTurn "A" [];
                              ToolResult "get_time" "12:00";
                              AgentTurn "B" []])
                  eq_refl
                  (ex_intro _ (fun _ _ =>
                     completed (stream_of [AgentTurn "A" [];
                                           ToolResult "get_time" "12:00";
                                           AgentTurn "B" []]))
                     (conj eq_refl (conj eq_refl eq_refl))))
               "get_time" "12:00").
  reflexivity.
Defined.

(* ------------------------------------------------------------------ *)
(** ** Fallback rule *)

(** C3, as the specification states it, fails: for a stream that ends in a
    tool result of 201 characters the response is the whole result, which is
    not the 200-character preview the trace holds. *)
Lemma fallback_is_not_the_preview :
  spec_lastNonToolAgentText
    [AgentTurn "" [mkToolCall "web_search" "rocq"];
     ToolResult "web_search" (PyStr.replicate 201 "x")] = ""
  /\ fst (query (scripted true 8
                   (completed (stream_of
                      [AgentTurn "" [mkToolCall "web_search" "rocq"];
                       ToolResult "web_search" (PyStr.replicate 201 "x")])))
                "search for rocq")
     = Returned (Success (PyStr.replicate 201 "x")
                         [mkStep "web_search" (PyStr.replicate 200 "x")])
  /\ PyStr.replicate 201 "x" <> PyStr.replicate 200 "x".
Proof.
  split; [reflexivity|]. split; [vm_compute; reflexivity|].
  intros E. apply (f_equal String.length) in E. vm_compute in E. discriminate E.
Qed.

(** C3 (amended): with verbose logging on and a stream that ends normally
    after at least one message, if no agent turn without tool requests has
    non-empty text then the final response is the content of the very last
    message of the stream; in particular a stream ending in a tool result
    yields that tool's whole result text, of any length and possibly
    empty. *)
Theorem fallback_to_last_message (self : MCPClient) (q : string) (cs : list Chunk) :
  verbose (config self) = true ->
  streams self q cs ->
  (forall c, In (AIMessage c []) (streamed cs) -> c = "") ->
  (streamed cs <> [] ->
   answers self q (content (last (streamed cs) (HumanMessage ""))))
  /\ (forall events n raw,
        cs = stream_of (events ++ [ToolResult n raw]) ->
        answers self q raw).
Proof.
  intros V S H.
  assert (G : streamed cs <> [] ->
              answers self q (content (last (streamed cs) (HumanMessage "")))).
  { intros Hne. unfold answers. rewrite (query_verbose self q cs V S).
    rewrite (extract_response_fallback _ H Hne). eauto. }
  split; [exact G|].
  intros events n raw E.
  assert (L : streamed cs = map message_of_event events ++ [ToolMessage n raw]).
  { subst cs. now rewrite streamed_stream_of, map_app. }
  replace raw with (content (last (streamed cs) (HumanMessage ""))).
  - apply G. rewrite L. intros C. now apply app_eq_nil in C as [_ C].
  - rewrite L, last_last. reflexivity.
Qed.

Lemma fallback_to_last_message_witness :
  answers (scripted true 8
             (completed (stream_of
                ([AgentTurn "" [mkToolCall "get_time" ""]]
                 ++ [ToolResult "get_time" "12:00"]))))
          "what time is it" "12:00".
Proof.
  refine (proj2 (fallback_to_last_message
                   (scripted true 8
                      (completed (stream_of
                         ([AgentTurn "" [mkToolCall "get_time" ""]]
                          ++ [ToolResult "get_time" "12:00"]))))
                   "what time is it"
                   (stream_of ([AgentTurn "" [mkToolCall "get_time" ""]]
                               ++ [ToolResult "get_time" "12:00"]))
                   eq_refl _ _)
                [AgentTurn "" [mkToolCall "get_time" ""]] "get_time" "12:00"
                eq_refl).
  - exists (fun _ _ =>
              completed (stream_of
                 ([AgentTurn "" [mkToolCall "get_time" ""]]
                  ++ [ToolResult "get_time" "12:00"]))).
    repeat split.
  - intros c [E|[E|[]]]; discriminate E.
Defined.

(* ------------------------------------------------------------------ *)
(** ** Step trace *)

Lemma take_length n : forall s,
  String.length (PyStr.take n s) = Nat.min n (String.length s).
Proof.
  induction n as [|n IH]; intros [|c s]; simpl; auto.
Qed.

Lemma take_all n : forall s, String.length s <= n -> PyStr.take n s = s.
Proof.
  induction n as [|n IH]; intros [|c s] H; simpl in *; try reflexivity; try lia.
  f_equal. apply IH. lia.
Qed.

Lemma string_length_app (a b : string) :
  String.length (a ++ b)%string = String.length a + String.length b.
Proof. induction a as [|c a IH]; simpl; auto. Qed.

Lemma trace_entries_cons_tool n raw msgs :
  trace_entries (ToolMessage n raw :: msgs)
    = mkStep n (PyStr.take preview_bound raw) :: trace_entries msgs.
Proof. reflexivity. Qed.

Lemma trace_entries_cons_other m msgs :
  is_tool_message m = false -> trace_entries (m :: msgs) = trace_entries msgs.
Proof. destruct m; [reflexivity|reflexivity|discriminate]. Qed.

Lemma trace_entry_for_take n raw :
  trace_entry_for (ToolMessage n raw) (mkStep n (PyStr.take preview_bound raw)).
Proof.
  unfold trace_entry_for. cbn [tool result]. rewrite take_length.
  repeat split.
  - apply Nat.le_min_l.
  - apply take_all.
  - apply Nat.min_l. lia.
Qed.

Lemma trace_entries_sound msgs :
  Forall2 trace_entry_for (filter is_tool_message msgs) (trace_entries msgs).
Proof.
  induction msgs as [|m msgs IH]; [constructor|].
  destruct (is_tool_message m) eqn:T.
  - destruct m as [c|c tcs|n raw]; try discriminate T.
    rewrite trace_entries_cons_tool. cbn [filter is_tool_message].
    constructor; [apply trace_entry_for_take|exact IH].
  - rewrite (trace_entries_cons_other m msgs T). cbn [filter]. now rewrite T.
Qed.

Lemma trace_entries_bounded msgs :
  Forall (fun st => String.length (result st) <= preview_bound)
         (trace_entries msgs).
Proof.
  induction msgs as [|m msgs IH]; [constructor|].
  destruct (is_tool_message m) eqn:T.
  - destruct m as [c|c tcs|n raw]; try discriminate T.
    rewrite trace_entries_cons_tool. constructor; [|exact IH].
    cbn [result]. rewrite take_length. apply Nat.le_min_l.
  - now rewrite (trace_entries_cons_other m msgs T).
Qed.

(** C7, as the specification states it, fails: the entry stored for a tool
    result of 201 characters is its first 200 characters and nothing else;
    no truncation marker follows them. *)
Lemma trace_entry_carries_no_marker :
  fst (query (scripted true 8
                (completed (stream_of
                   [AgentTurn "" [mkToolCall "web_search" "rocq"];
                    ToolResult "web_search" (PyStr.replicate 201 "x");
                    AgentTurn "done" []])))
             "search for rocq")
    = Returned (Success "done" [mkStep "web_search" (PyStr.replicate 200 "x")])
  /\ forall marker : string,
       marker <> "" ->
       PyStr.replicate 200 "x"
         <> (PyStr.take preview_bound (PyStr.replicate 201 "x") ++ marker)%string.
Proof.
  split; [vm_compute; reflexivity|].
  intros marker Hm E. apply (f_equal String.length) in E.
  rewrite string_length_app, take_length in E.
  destruct marker as [|c marker]; [congruence|].
  vm_compute in E. lia.
Qed.

(** C7 (amended): with verbose logging on and a stream that ends normally,
    the step trace has one entry per tool message, in order; a result longer
    than 200 characters is stored as exactly its first 200 characters, with
    no marker appended, so the whole value never reaches the caller through
    the trace; a result of at most 200 characters is stored complete and
    unmarked. *)
Theorem trace_truncation (self : MCPClient) (q : string) (cs : list Chunk) :
  verbose (config self) = true ->
  streams self q cs ->
  exists r steps,
    fst (query self q) = Returned (Success r steps)
    /\ Forall2 trace_entry_for
               (filter is_tool_message (tool_messages_of cs)) steps
    /\ Forall (fun st => String.length (result st) <= preview_bound) steps.
Proof.
  intros V S. rewrite (query_verbose self q cs V S).
  do 2 eexists. split; [reflexivity|].
  split; [apply trace_entries_sound|apply trace_entries_bounded].
Qed.

Lemma trace_truncation_witness :
  exists r steps,
    fst (query (scripted true 8
                  (completed (stream_of
                     [AgentTurn "" [mkToolCall "web_search" "rocq"];
                      ToolResult "web_search" (PyStr.replicate 201 "x");
                      AgentTurn "done" []])))
               "search for rocq")
      = Returned (Success r steps)
    /\ Forall2 trace_entry_for
               [ToolMessage "web_search" (PyStr.replicate 201 "x")] steps
    /\ Forall (fun st => String.length (result st) <= preview_bound) steps.
Proof.
  apply (trace_truncation
           (scripted true 8
              (completed (stream_of
                 [AgentTurn "" [mkToolCall "web_search" "rocq"];
                  ToolResult "web_search" (PyStr.replicate 201 "x");
                  AgentTurn "done" []])))
           "search for rocq"
           (stream_of
              [AgentTurn "" [mkToolCall "web_search" "rocq"];
               ToolResult "web_search" (PyStr.replicate 201 "x");
               AgentTurn "done" []])).
  - reflexivity.
  - exists (fun _ _ =>
              completed (stream_of
                 [AgentTurn "" [mkToolCall "web_search" "rocq"];
                  ToolResult "web_search" (PyStr.replicate 201 "x");
                  AgentTurn "done" []])).
    repeat split.
Defined.

(* ------------------------------------------------------------------ *)
(** ** connect *)

Lemma connect_success env self self' :
  connect env self = (Returned tt, self') ->
  exists base_tools a,
    get_tools env = Returned base_tools
    /\ create_react_agent env base_tools = Returned a
    /\ self' = mkClient (config self)
                 (Some (mkChatGroq (groq_model (config self))
                                   (agent_timeout (config self))
                                   (verbose (config self))))
                 (Some (mkChatGroq (groq_model (config self))
                                   (agent_timeout (config self))
                                   (verbose (config self))))
                 (Some (mcp_url (config self)))
                 (Some a)
                 (Some (ConversationMemory.new (memory_window_size (config self))))
                 base_tools
                 ((calls self ++ [GetTools]) ++ [CreateAgent base_tools]).
Proof.
  unfold connect. intros H.
  destruct (negb (PyStr.truthy (groq_api_key (config self)))); [discriminate H|].
  destruct (get_tools env) as [base_tools|e] eqn:Ht; [|discriminate H].
  destruct (create_react_agent env base_tools) as [a|e] eqn:Ha; [|discriminate H].
  injection H as <-. exists base_tools, a. repeat split. exact Ha.
Qed.

(** C8, as the specification states it, fails: a second [connect] on a
    connected client whose memory holds an exchange fetches the tools again
    and comes back with an empty memory. *)
Lemma second_connect_clears_memory :
  let run := completed (stream_of [AgentTurn "It is noon." []]) in
  let self := run_queries (scripted true 8 run) ["what time is it"] in
  memory self
    = Some (ConversationMemory.mk 8 [HumanMessage "what time is it";
                                      AIMessage "It is noon." []])
  /\ fst (connect (scripted_services run) self) = Returned tt
  /\ memory (snd (connect (scripted_services run) self))
     = Some (ConversationMemory.mk 8 [])
  /\ calls (snd (connect (scripted_services run) self))
     = calls self ++ [GetTools; CreateAgent example_tools]
  /\ snd (connect (scripted_services run) self) <> self.
Proof.
  cbv zeta. repeat split. intros E.
  apply (f_equal memory) in E. discriminate E.
Qed.

(** C8 (amended): [connect] has no already-connected case.  Every successful
    call, the first or a later one, fetches the tool catalog, builds a new
    agent from it and replaces the conversation memory by a new, empty one
    of the configured window; two successful calls in a row against the
    same services leave the same tools, agent and (empty) memory as the
    first, with the external calls made twice. *)
Theorem connect_always_rebuilds (env : Services) (self self' : MCPClient) :
  connect env self = (Returned tt, self') ->
  (exists base_tools a,
     get_tools env = Returned base_tools
     /\ create_react_agent env base_tools = Returned a
     /\ tools self' = base_tools
     /\ agent self' = Some a
     /\ memory self'
        = Some (ConversationMemory.new (memory_window_size (config self)))
     /\ calls self' = calls self ++ [GetTools; CreateAgent base_tools])
  /\ (forall self'',
        connect env self' = (Returned tt, self'') ->
        tools self'' = tools self' /\ agent self'' = agent self'
        /\ memory self'' = memory self'
        /\ calls self'' = calls self' ++ [GetTools; CreateAgent (tools self')]).
Proof.
  intros H. destruct (connect_success _ _ _ H) as (ts & a & Ht & Ha & ->).
  split.
  - exists ts, a. simpl. rewrite <- app_assoc. repeat split; assumption.
  - intros self'' H2.
    destruct (connect_success _ _ _ H2) as (ts' & a' & Ht' & Ha' & ->).
    rewrite Ht in Ht'. injection Ht' as <-.
    rewrite Ha in Ha'. injection Ha' as <-.
    simpl. rewrite <- !app_assoc. repeat split.
Qed.

Lemma connect_always_rebuilds_witness :
  memory (scripted true 8 (completed []))
    = Some (ConversationMemory.new 8).
Proof.
  destruct (proj1 (connect_always_rebuilds
                     (scripted_services (completed []))
                     (init (example_config true 8))
                     (scripted true 8 (completed []))
                     eq_refl))
    as (ts & a & _ & _ & _ & _ & Hm & _).
  exact Hm.
Defined.

(* ------------------------------------------------------------------ *)
(** ** Memory window *)

Module MemoryFacts.
Import ConversationMemory.

Lemma k_append m e : k (append m e) = k m.
Proof. reflexivity. Qed.

Lemma k_save_context m i o : k (save_context m i o) = k m.
Proof. reflexivity. Qed.

Lemma append_bound m e :
  (0 <= k m)%Z ->
  (Z.of_nat (List.length (buffer m)) <= 2 * k m)%Z ->
  (Z.of_nat (List.length (buffer (append m e))) <= 2 * k m)%Z.
Proof.
  intros Hk Hb. unfold append. cbn [buffer k].
  destruct (Z.ltb_spec (2 * k m) (Z.of_nat (List.length (buffer m ++ [e]))))
    as [Hlt|Hge]; [|exact Hge].
  rewrite length_skipn, length_app. rewrite length_app in Hlt.
  cbn [List.length] in *. lia.
Qed.

Lemma save_context_bound m i o :
  (0 <= k m)%Z ->
  (Z.of_nat (List.length (buffer m)) <= 2 * k m)%Z ->
  (Z.of_nat (List.length (buffer (save_context m i o))) <= 2 * k m)%Z.
Proof.
  intros Hk Hb. unfold save_context.
  rewrite <- (k_append m (HumanMessage i)).
  apply append_bound; rewrite k_append; [exact Hk|].
  now apply append_bound.
Qed.

(** Only the oldest messages go: what is kept is a suffix. *)
Lemma append_suffix m e :
  exists dropped, buffer m ++ [e] = dropped ++ buffer (append m e).
Proof.
  unfold append. cbn [buffer].
  destruct (2 * k m <? Z.of_nat (List.length (buffer m ++ [e])))%Z.
  - exists (firstn 2 (buffer m ++ [e])). now rewrite firstn_skipn.
  - now exists [].
Qed.

Lemma save_context_suffix m i o :
  exists dropped,
    buffer m ++ [HumanMessage i; AIMessage o []]
      = dropped ++ buffer (save_context m i o).
Proof.
  unfold save_context.
  destruct (append_suffix m (HumanMessage i)) as [d1 E1].
  destruct (append_suffix (append m (HumanMessage i)) (AIMessage o [])) as [d2 E2].
  exists (d1 ++ d2).
  change [HumanMessage i; AIMessage o []]
    with ([HumanMessage i] ++ [AIMessage o []]).
  now rewrite app_assoc, E1, <- !app_assoc, E2.
Qed.

(** Nothing goes while the pair still fits. *)
Lemma save_context_room m i o :
  (Z.of_nat (List.length (buffer m)) + 2 <= 2 * k m)%Z ->
  buffer (save_context m i o) = buffer m ++ [HumanMessage i; AIMessage o []].
Proof.
  intros H. unfold save_context, append. cbn [buffer k].
  destruct (Z.ltb_spec (2 * k m) (Z.of_nat (List.length (buffer m ++ [HumanMessage i]))))
    as [Hlt|_].
  { rewrite length_app in Hlt. cbn [List.length] in Hlt. lia. }
  destruct (Z.ltb_spec (2 * k m)
              (Z.of_nat (List.length ((buffer m ++ [HumanMessage i]) ++ [AIMessage o []]))))
    as [Hlt|_].
  { rewrite !length_app in Hlt. cbn [List.length] in Hlt. lia. }
  now rewrite <- app_assoc.
Qed.

End MemoryFacts.

Section Window.

Variable W : Z.
Hypothesis W_nonneg : (0 <= W)%Z.

Lemma memory_within_new self :
  memory self = Some (ConversationMemory.new W) -> memory_within W self.
Proof.
  intros H. exists (ConversationMemory.new W).
  cbn [ConversationMemory.new ConversationMemory.k ConversationMemory.buffer
       List.length].
  repeat split; [exact H|lia].
Qed.

Lemma memory_within_query self q :
  memory_within W self -> memory_within W (snd (query self q)).
Proof.
  intros (m & Hm & Hk & Hb).
  destruct (query self q) as [o self'] eqn:E. cbn [snd].
  destruct (query_memory_cases _ _ _ _ E)
    as [Same|(m0 & r & st & _ & _ & Hm0 & Hm')].
  - exists m. rewrite Same. auto.
  - rewrite Hm in Hm0. injection Hm0 as <-.
    exists (ConversationMemory.save_context m q r).
    rewrite MemoryFacts.k_save_context. repeat split; [exact Hm'|exact Hk|].
    rewrite <- Hk. apply MemoryFacts.save_context_bound; rewrite Hk; assumption.
Qed.

Lemma memory_within_run qs : forall self,
  memory_within W self -> memory_within W (run_queries self qs).
Proof.
  unfold run_queries.
  induction qs as [|q qs IH]; intros self H; cbn [fold_left]; [exact H|].
  apply IH. now apply memory_within_query.
Qed.

End Window.

(** C9: for every window size [W >= 0], after [connect] and any sequence of
    [query] calls the conversation memory holds at most [2 * W] messages; a
    successful query stores its user and assistant messages at the end, what
    is dropped is dropped from the old end, and nothing is dropped while the
    new pair still fits. *)
Theorem memory_eviction_invariant
        (W : Z) (env : Services) (self0 self : MCPClient) (qs : list string) :
  (0 <= W)%Z ->
  memory_window_size (config self0) = W ->
  connect env self0 = (Returned tt, self) ->
  memory_within W (run_queries self qs)
  /\ (forall c q r steps c' m,
        memory c = Some m -> is_greeting q = false ->
        query c q = (Returned (Success r steps), c') ->
        exists m',
          memory c' = Some m'
          /\ (exists dropped,
                ConversationMemory.buffer m ++ [HumanMessage q; AIMessage r []]
                = dropped ++ ConversationMemory.buffer m')
          /\ ((Z.of_nat (List.length (ConversationMemory.buffer m)) + 2
               <= 2 * ConversationMemory.k m)%Z ->
              ConversationMemory.buffer m'
              = ConversationMemory.buffer m ++ [HumanMessage q; AIMessage r []])).
Proof.
  intros HW Hcfg Hc. split.
  - apply memory_within_run; [exact HW|]. apply memory_within_new; [exact HW|].
    destruct (connect_success _ _ _ Hc) as (ts & a & _ & _ & ->).
    simpl. now rewrite Hcfg.
  - intros c q r steps c' m Hm G Hq.
    destruct (agent c) as [ag|] eqn:Ha.
    + rewrite (query_run c q ag Ha G) in Hq. cbv zeta in Hq.
      destruct (raised _); [discriminate Hq|].
      injection Hq as <- _ <-.
      unfold update_memory. rewrite memory_log_call, Hm.
      eexists. split; [reflexivity|]. split.
      * apply MemoryFacts.save_context_suffix.
      * apply MemoryFacts.save_context_room.
    + rewrite (query_not_connected c q Ha) in Hq. discriminate Hq.
Qed.

Lemma memory_eviction_invariant_witness :
  memory_within 1
    (run_queries (scripted true 1 (completed (stream_of [AgentTurn "ok" []])))
                 ["one"; "two"; "three"]).
Proof.
  apply (proj1 (memory_eviction_invariant 1
                  (scripted_services (completed (stream_of [AgentTurn "ok" []])))
                  (init (example_config true 1))
                  (scripted true 1 (completed (stream_of [AgentTurn "ok" []])))
                  ["one"; "two"; "three"]
                  ltac:(lia) eq_refl eq_refl)).
Defined.

(* ------------------------------------------------------------------ *)
(** ** More on [connect] and [query] *)

Lemma update_memory_frame self q r :
  config (update_memory self q r) = config self
  /\ agent (update_memory self q r) = agent self
  /\ tools (update_memory self q r) = tools self
  /\ calls (update_memory self q r) = calls self.
Proof. unfold update_memory. destruct (memory self); repeat split. Qed.

(** [query] writes to the memory and to the call log only. *)
Lemma query_frame self q :
  config (snd (query self q)) = config self
  /\ agent (snd (query self q)) = agent self
  /\ tools (snd (query self q)) = tools self.
Proof.
  destruct (agent self) as [ag|] eqn:Ha.
  - destruct (is_greeting q) eqn:G.
    + rewrite (query_greeting self q ag Ha G). simpl. auto.
    + rewrite (query_run self q ag Ha G). cbv zeta.
      destruct (raised _); cbn [snd].
      * repeat split; assumption.
      * destruct (update_memory_frame
                    (log_call self (AStream (build_messages self q))) q
                    (extract_response
                       (snd (consume (verbose (config self))
                               (chunks (ag (List.length (calls self))
                                           (build_messages self q)))))))
          as (E1 & E2 & E3 & _).
        rewrite E1, E2, E3. repeat split; assumption.
  - rewrite (query_not_connected self q Ha). simpl. auto.
Qed.

Lemma run_queries_frame qs : forall self,
  config (run_queries self qs) = config self
  /\ agent (run_queries self qs) = agent self
  /\ tools (run_queries self qs) = tools self.
Proof.
  unfold run_queries.
  induction qs as [|q qs IH]; intros self; cbn [fold_left]; [auto|].
  destruct (IH (snd (query self q))) as (E1 & E2 & E3).
  destruct (query_frame self q) as (F1 & F2 & F3).
  rewrite E1, E2, E3. auto.
Qed.

Lemma query_returns self q ag :
  agent self = Some ag -> exists r, fst (query self q) = Returned r.
Proof.
  intros Ha. destruct (is_greeting q) eqn:G.
  - rewrite (query_greeting self q ag Ha G). simpl. eauto.
  - rewrite (query_run self q ag Ha G). cbv zeta.
    destruct (raised _); simpl; eauto.
Qed.

(** X1: once [connect] has succeeded, the client stays connected through
    any sequence of queries (its agent, tools and configuration are never
    touched by [query]) and every further [query] returns a result instead
    of raising. *)
Theorem connected_client_keeps_answering
        (env : Services) (self0 self : MCPClient) (qs : list string) (q : string) :
  connect env self0 = (Returned tt, self) ->
  agent (run_queries self qs) = agent self
  /\ tools (run_queries self qs) = tools self
  /\ config (run_queries self qs) = config self0
  /\ exists r, fst (query (run_queries self qs) q) = Returned r.
Proof.
  intros Hc. destruct (run_queries_frame qs self) as (E1 & E2 & E3).
  destruct (connect_success _ _ _ Hc) as (ts & a & _ & _ & Hs).
  repeat split; try assumption.
  - rewrite E1. subst self. reflexivity.
  - apply (query_returns _ q a). rewrite E2. subst self. reflexivity.
Qed.

Lemma connected_client_keeps_answering_witness :
  exists r,
    fst (query (run_queries
                  (scripted true 2 (failing (RuntimeError "rate limited")))
                  ["one"; "hello"; "two"])
               "three")
      = Returned r.
Proof.
  apply (connected_client_keeps_answering
           (scripted_services (failing (RuntimeError "rate limited")))
           (init (example_config true 2))
           (scripted true 2 (failing (RuntimeError "rate limited")))
           ["one"; "hello"; "two"] "three" eq_refl).
Defined.

(** X2: a [connect] that fails always raises a [RuntimeError] whose text
    starts with "Failed to connect client: ", and never changes the agent.
    With an empty API key the client is left untouched; otherwise the
    memory has already been replaced by an empty one, so a connected client
    whose reconnection fails keeps its agent but has lost its
    conversation. *)
Theorem failed_connect_effects
        (env : Services) (self self' : MCPClient) (e : PyException) :
  connect env self = (Raised e, self') ->
  exc_class e = "RuntimeError"
  /\ (exists cause, exc_str e = ("Failed to connect client: " ++ cause)%string)
  /\ agent self' = agent self
  /\ (groq_api_key (config self) = "" -> self' = self)
  /\ (groq_api_key (config self) <> "" ->
      memory self'
        = Some (ConversationMemory.new (memory_window_size (config self)))).
Proof.
  unfold connect. intros H.
  destruct (groq_api_key (config self)) as [|c key] eqn:K; cbn [PyStr.truthy negb] in H.
  - injection H as <- <-.
    split; [reflexivity|]. split; [eexists; reflexivity|].
    split; [reflexivity|]. split; [reflexivity|]. intros F. congruence.
  - assert (R : forall cause s',
               agent s' = agent self ->
               memory s' = Some (ConversationMemory.new
                                   (memory_window_size (config self))) ->
               (Raised (connect_failed cause), s') = (@Raised unit e, self') ->
               exc_class e = "RuntimeError"
               /\ (exists cause, exc_str e = ("Failed to connect client: " ++ cause)%string)
               /\ agent self' = agent self
               /\ (String c key = "" -> self' = self)
               /\ (String c key <> "" ->
                   memory self' = Some (ConversationMemory.new
                                          (memory_window_size (config self))))).
    { intros cause s' Hag Hmem E. injection E as <- <-.
      split; [reflexivity|]. split; [eexists; reflexivity|].
      split; [exact Hag|]. split; [intros F; discriminate F|].
      intros _. exact Hmem. }
    destruct (get_tools env) as [ts|e1].
    + destruct (create_react_agent env ts) as [a|e2]; [discriminate H|].
      eapply R; [| |exact H]; reflexivity.
    + eapply R; [| |exact H]; reflexivity.
Qed.

Lemma failed_connect_effects_witness :
  memory (snd (connect
                 (mkServices (Raised (mkExc "TimeoutError" "timed out"))
                             (fun _ => Raised (mkExc "TypeError" "unused")))
                 (run_queries
                    (scripted true 8
                       (completed (stream_of [AgentTurn "It is noon." []])))
                    ["what time is it"])))
    = Some (ConversationMemory.new 8).
Proof.
  refine (proj2 (proj2 (proj2 (proj2
            (failed_connect_effects
               (mkServices (Raised (mkExc "TimeoutError" "timed out"))
                           (fun _ => Raised (mkExc "TypeError" "unused")))
               (run_queries
                  (scripted true 8
                     (completed (stream_of [AgentTurn "It is noon." []])))
                  ["what time is it"])
               _ (connect_failed (mkExc "TimeoutError" "timed out"))
               eq_refl)))) _).
  discriminate.
Defined.

Lemma last_slice_positive {A} (n : Z) (l : list A) :
  (0 < n)%Z ->
  PyStr.last_slice n l = skipn (List.length l - Z.to_nat n) l.
Proof.
  intros Hn. unfold PyStr.last_slice.
  destruct (Z.ltb_spec (- n) 0) as [_|H]; [|lia].
  f_equal. lia.
Qed.

(** X3: a non-greeting [query] on a connected client calls the agent exactly
    once, with the recent history followed by the new user message; for a
    window [W >= 1] the history is the last [min(W, len)] messages of the
    memory buffer: [W] counts messages, not user/assistant pairs. *)
Theorem agent_context_window (self : MCPClient) (q : string) (ag : Agent) :
  agent self = Some ag ->
  is_greeting q = false ->
  calls (snd (query self q)) = calls self ++ [AStream (build_messages self q)]
  /\ exists history,
       build_messages self q = history ++ [HumanMessage q]
       /\ (memory self = None -> history = [])
       /\ (forall m,
             memory self = Some m ->
             (0 < memory_window_size (config self))%Z ->
             List.length history
               = Nat.min (Z.to_nat (memory_window_size (config self)))
                         (List.length (ConversationMemory.buffer m))
             /\ exists older, ConversationMemory.buffer m = older ++ history).
Proof.
  intros Ha G. split.
  - rewrite (query_run self q ag Ha G). cbv zeta.
    destruct (raised _); cbn [snd]; [reflexivity|].
    apply update_memory_frame.
  - unfold build_messages. eexists. split; [reflexivity|]. split.
    + intros Hm. now rewrite Hm.
    + intros m Hm HW. rewrite Hm.
      destruct (ConversationMemory.buffer m) as [|x b] eqn:B.
      * split; [now rewrite Nat.min_0_r|now exists []].
      * rewrite (last_slice_positive _ (x :: b) HW). split.
        -- rewrite length_skipn. lia.
        -- exists (firstn (List.length (x :: b)
                           - Z.to_nat (memory_window_size (config self)))
                          (x :: b)).
           now rewrite firstn_skipn.
Qed.

Lemma agent_context_window_witness :
  calls (snd (query (scripted true 2 (completed [])) "what time is it"))
    = calls (scripted true 2 (completed []))
      ++ [AStream (build_messages (scripted true 2 (completed []))
                                  "what time is it")].
Proof.
  apply (agent_context_window (scripted true 2 (completed []))
           "what time is it" (fun _ _ => completed []));
    reflexivity.
Defined.

Lemma extract_response_origin msgs :
  extract_response msgs = ""
  \/ exists m, In m msgs /\ content m = extract_response msgs.
Proof.
  unfold extract_response. destruct msgs as [|m0 msgs]; [now left|].
  set (l := m0 :: msgs).
  destruct (PyStr.truthy (last_ai_reply (rev l))) eqn:T.
  - destruct (last_ai_reply_origin (rev l)) as [E|E].
    + rewrite E in T. discriminate T.
    + right. exists (AIMessage (last_ai_reply (rev l)) []). split.
      * now apply in_rev.
      * reflexivity.
  - right. exists (last l (HumanMessage "")). split; [|reflexivity].
    rewrite (app_removelast_last (HumanMessage "") (l := l)) at 2
      by (unfold l; discriminate).
    apply in_or_app. right. now left.
Qed.

Lemma trace_entries_origin msgs st :
  In st (trace_entries msgs) ->
  exists n raw,
    In (ToolMessage n raw) msgs /\ st = mkStep n (PyStr.take preview_bound raw).
Proof.
  unfold trace_entries. intros H. apply in_flat_map in H as (m & Hm & Hst).
  destruct m as [c|c tcs|n raw]; try contradiction.
  destruct Hst as [<-|[]]. eauto.
Qed.

Lemma tool_messages_streamed cs m :
  In m (tool_messages_of cs) -> In m (streamed cs).
Proof.
  unfold tool_messages_of, streamed. intros H.
  apply in_flat_map in H as (chunk & Hc & H).
  apply in_flat_map in H as (item & Hi & H).
  apply in_flat_map. exists chunk. split; [exact Hc|].
  apply in_flat_map. exists item. split; [exact Hi|].
  unfold node_tool_messages in H. unfold node_messages.
  destruct (String.eqb (fst item) "agent"); [contradiction|exact H].
Qed.

(** X4: [query] invents nothing.  A successful response is empty, the
    canned greeting, or the content of a message the agent streamed during
    this very call; and every entry of [intermediate_steps] is the name and
    the first 200 characters of the content of a streamed [ToolMessage]. *)
Theorem result_comes_from_stream
        (self : MCPClient) (q r : string) (steps : list Step) :
  fst (query self q) = Returned (Success r steps) ->
  (r = "" \/ r = greeting_response
   \/ exists ag m,
        agent self = Some ag
        /\ In m (streamed (chunks (ag (List.length (calls self))
                                      (build_messages self q))))
        /\ content m = r)
  /\ (forall st, In st steps ->
        exists ag n raw,
          agent self = Some ag
          /\ In (ToolMessage n raw)
                (streamed (chunks (ag (List.length (calls self))
                                      (build_messages self q))))
          /\ st = mkStep n (PyStr.take preview_bound raw)).
Proof.
  intros H. destruct (agent self) as [ag|] eqn:Ha.
  - destruct (is_greeting q) eqn:G.
    + rewrite (query_greeting self q ag Ha G) in H. injection H as <- <-.
      split; [auto|]. intros st [].
    + rewrite (query_run self q ag Ha G) in H. cbv zeta in H.
      destruct (raised _); [discriminate H|]. cbn [fst] in H.
      destruct (verbose (config self)).
      * rewrite consume_verbose in H. cbn [fst snd] in H.
        injection H as <- <-. split.
        -- destruct (extract_response_origin
                       (streamed (chunks (ag (List.length (calls self))
                                             (build_messages self q)))))
             as [E|(m & Hm & E)]; [now left|].
           right. right. exists ag, m. auto.
        -- intros st Hst.
           apply trace_entries_origin in Hst as (n & raw & Hin & ->).
           exists ag, n, raw. repeat split.
           now apply tool_messages_streamed.
      * rewrite consume_quiet in H. cbn [fst snd] in H.
        injection H as <- <-. split; [now left|]. intros st [].
  - rewrite (query_not_connected self q Ha) in H. discriminate H.
Qed.

Lemma result_comes_from_stream_witness :
  "It is noon." = ""
  \/ "It is noon." = greeting_response
  \/ exists ag m,
       agent (scripted true 8
                (completed (stream_of [AgentTurn "It is noon." []])))
         = Some ag
       /\ In m (streamed (chunks (ag
            (List.length (calls (scripted true 8
               (completed (stream_of [AgentTurn "It is noon." []])))))
            (build_messages (scripted true 8
               (completed (stream_of [AgentTurn "It is noon." []])))
               "what time is it"))))
       /\ content m = "It is noon.".
Proof.
  apply (proj1 (result_comes_from_stream
                  (scripted true 8
                     (completed (stream_of [AgentTurn "It is noon." []])))
                  "what time is it" "It is noon." [] eq_refl)).
Defined.

Lemma on_node_foreign st item :
  String.eqb (fst item) "agent" = false ->
  PyStr.startswith "tools" (fst item) = false ->
  on_node st item = st.
Proof.
  destruct st as [steps finals], item as [name o]. cbn [fst].
  intros E1 E2. unfold on_node. now rewrite E1, E2.
Qed.

(** X5: the streaming loop reads the ["agent"] node and the nodes whose
    name starts with ["tools"] only.  A chunk made of other nodes, anywhere
    in the stream, changes neither the collected messages nor the step
    trace. *)
Theorem foreign_nodes_ignored
        (v : bool) (cs1 cs2 : list Chunk) (chunk : Chunk) :
  Forall (fun item =>
            String.eqb (fst item) "agent" = false
            /\ PyStr.startswith "tools" (fst item) = false) chunk ->
  consume v (cs1 ++ chunk :: cs2) = consume v (cs1 ++ cs2).
Proof.
  intros F. unfold consume. rewrite !fold_left_app. cbn [fold_left].
  f_equal. generalize (fold_left (on_chunk v) cs1 ([], [])). intros st.
  unfold on_chunk. destruct v; [|reflexivity].
  induction F as [|item chunk [E1 E2] F IH]; cbn [fold_left]; [reflexivity|].
  now rewrite (on_node_foreign st item E1 E2).
Qed.

Lemma foreign_nodes_ignored_witness :
  consume true ([[("agent", Some [AIMessage "" [mkToolCall "get_time" ""]])]]
                ++ [("agent2", Some [AIMessage "noise" []]);
                    ("pre_model_hook", None)]
                   :: [[("tools", Some [ToolMessage "get_time" "12:00"])]])
    = consume true ([[("agent", Some [AIMessage "" [mkToolCall "get_time" ""]])]]
                    ++ [[("tools", Some [ToolMessage "get_time" "12:00"])]]).
Proof.
  apply (foreign_nodes_ignored true).
  repeat constructor.
Defined.

(* ------------------------------------------------------------------ *)
(** ** The callback handler *)

(** X6: the preview [on_tool_end] logs has at most 503 characters.  An
    output of at most 500 characters is logged whole; a longer one is cut to
    its first 500 characters followed by "...", so a preview was cut exactly
    when its length is 503. *)
Theorem output_preview_bounds (output : string) :
  String.length (Handler.output_preview output) <= 503
  /\ (String.length output <= 500 -> Handler.output_preview output = output)
  /\ (500 < String.length output ->
      Handler.output_preview output = (PyStr.take 500 output ++ "...")%string)
  /\ (String.length (Handler.output_preview output) = 503
      <-> 500 < String.length output).
Proof.
  unfold Handler.output_preview.
  destruct (Nat.ltb_spec 500 (String.length output)) as [H|H].
  - assert (L : String.length (PyStr.take 500 output ++ "...")%string = 503).
    { rewrite string_length_app, take_length, Nat.min_l by lia. reflexivity. }
    rewrite L. repeat split; auto; lia.
  - repeat split; auto; lia.
Qed.

Lemma output_preview_bounds_witness :
  Handler.output_preview "12:00" = "12:00".
Proof.
  apply (proj1 (proj2 (output_preview_bounds "12:00"))).
  vm_compute. repeat constructor.
Defined.

Lemma last_cons_default {A} (l : list A) : forall y d,
  last (y :: l) d = last l y.
Proof.
  induction l as [|z l IH]; intros y d; [reflexivity|].
  change (last (y :: z :: l) d) with (last (z :: l) d).
  now rewrite !IH.
Qed.

(** X7: the name [on_tool_start] and [on_chain_start] log.  The fallback
    [serialized.get("id", ["unknown"])[-1]] is evaluated first, so an empty
    ["id"] list raises [IndexError] even when ["name"] is present; otherwise
    the name is ["name"] when present, else the last element of ["id"], else
    ["unknown"]. *)
Theorem serialized_name_cases (name : option string) (id : option (list string)) :
  (id = Some [] ->
   Handler.serialized_name (Handler.mkSerialized name id)
     = Raised (mkExc "IndexError" "list index out of range"))
  /\ (forall n, name = Some n -> id <> Some [] ->
        Handler.serialized_name (Handler.mkSerialized name id) = Returned n)
  /\ (name = None -> id = None ->
      Handler.serialized_name (Handler.mkSerialized name id) = Returned "unknown")
  /\ (forall l x, name = None -> id = Some (l ++ [x]) ->
        Handler.serialized_name (Handler.mkSerialized name id) = Returned x).
Proof.
  unfold Handler.serialized_name. cbn [Handler.s_name Handler.s_id].
  repeat split.
  - intros ->. reflexivity.
  - intros n -> Hid. destruct id as [[|x l]|]; [congruence| |]; reflexivity.
  - intros -> ->. reflexivity.
  - intros l x -> ->. unfold Handler.last_item.
    destruct (l ++ [x]) as [|y l'] eqn:E.
    + now destruct l.
    + f_equal. rewrite <- (last_cons_default l' y y), <- E. apply last_last.
Qed.

Lemma serialized_name_cases_witness :
  Handler.serialized_name (Handler.mkSerialized (Some "get_time") (Some []))
    = Raised (mkExc "IndexError" "list index out of range").
Proof.
  apply (proj1 (serialized_name_cases (Some "get_time") (Some []))).
  reflexivity.
Defined.

(* ------------------------------------------------------------------ *)
(** ** The tool server *)

Module StripFacts.
Import PyStr.

Lemma lstrip_shape s :
  lstrip s = "" \/ exists c t, lstrip s = String c t /\ isspace c = false.
Proof.
  induction s as [|c s IH]; [now left|].
  simpl. destruct (isspace c) eqn:E; [exact IH|]. right. eauto.
Qed.

Lemma lstrip_clean c t : isspace c = false -> lstrip (String c t) = String c t.
Proof. intros E. simpl. now rewrite E. Qed.

Lemma rstrip_head c t :
  isspace c = false -> exists t', rstrip (String c t) = String c t'.
Proof.
  intros E. simpl. destruct (rstrip t); rewrite ?E; eauto.
Qed.

Lemma rstrip_idem s : rstrip (rstrip s) = rstrip s.
Proof.
  induction s as [|c s IH]; [reflexivity|].
  simpl. destruct (rstrip s) as [|d r] eqn:R.
  - destruct (isspace c) eqn:E; [reflexivity|]. simpl. now rewrite E.
  - change (rstrip (String c (String d r))) with
      (match rstrip (String d r) with
       | EmptyString => if isspace c then EmptyString else String c EmptyString
       | r' => String c r'
       end).
    now rewrite IH.
Qed.

Lemma lstrip_strip s : lstrip (strip s) = strip s.
Proof.
  unfold strip. destruct (lstrip_shape s) as [->|(c & t & -> & E)]; [reflexivity|].
  destruct (rstrip_head c t E) as [t' ->]. now apply lstrip_clean.
Qed.

Lemma rstrip_strip s : rstrip (strip s) = strip s.
Proof. unfold strip. apply rstrip_idem. Qed.

Lemma strip_idem s : strip (strip s) = strip s.
Proof. unfold strip at 1. now rewrite lstrip_strip, rstrip_strip. Qed.

Lemma lstrip_empty s :
  lstrip s = "" <-> forallb isspace (list_ascii_of_string s) = true.
Proof.
  induction s as [|c s IH]; simpl; [split; reflexivity|].
  destruct (isspace c); simpl; [exact IH|]. split; discriminate.
Qed.

Lemma rstrip_empty s :
  rstrip s = "" <-> forallb isspace (list_ascii_of_string s) = true.
Proof.
  induction s as [|c s IH]; simpl; [split; reflexivity|].
  destruct (rstrip s) as [|d r].
  - destruct (isspace c); simpl.
    + split; [intros _; now apply IH|reflexivity].
    + split; discriminate.
  - split; [discriminate|]. intros H. apply andb_true_iff in H as [_ H].
    apply IH in H. discriminate H.
Qed.

Lemma strip_empty s :
  strip s = "" <-> forallb isspace (list_ascii_of_string s) = true.
Proof.
  unfold strip. rewrite rstrip_empty.
  destruct (lstrip_shape s) as [E|(c & t & E & Hc)]; rewrite E.
  - simpl. split; [intros _; now apply lstrip_empty|reflexivity].
  - simpl. rewrite Hc. simpl. split; [discriminate|].
    intros H. apply lstrip_empty in H. rewrite H in E. discriminate E.
Qed.

End StripFacts.

(** X8: [_env_required] returns the variable's value without its leading
    and trailing whitespace, and never an empty string; it raises
    [RuntimeError("Missing required env var: NAME")] exactly when the
    variable is unset, empty or made of whitespace only. *)
Theorem env_required_spec (env : Server.Environ) (name : string) :
  match Server._env_required env name with
  | Returned val =>
      val = PyStr.strip (Server.getenv env name "")
      /\ val <> ""
      /\ PyStr.lstrip val = val /\ PyStr.rstrip val = val
      /\ exists raw, env name = Some raw
  | Raised e =>
      e = RuntimeError ("Missing required env var: " ++ name)%string
      /\ forallb PyStr.isspace
                 (list_ascii_of_string (Server.getenv env name "")) = true
  end.
Proof.
  unfold Server._env_required.
  destruct (PyStr.strip (Server.getenv env name "")) as [|c t] eqn:E;
    cbn [PyStr.truthy negb].
  - split; [reflexivity|]. now apply StripFacts.strip_empty.
  - rewrite <- E. repeat split.
    + rewrite E. discriminate.
    + apply StripFacts.lstrip_strip.
    + apply StripFacts.rstrip_strip.
    + unfold Server.getenv in E. destruct (env name) as [raw|]; [eauto|].
      discriminate E.
Qed.

Lemma not_allowed_rejected (expression : string) (c : ascii) :
  In c (list_ascii_of_string expression) ->
  ~ In c Server.allowed_chars ->
  Server.all_allowed expression = false.
Proof.
  intros Hin Hout. destruct (Server.all_allowed expression) eqn:A; [|reflexivity].
  exfalso. apply Hout. unfold Server.all_allowed in A.
  rewrite forallb_forall in A. specialize (A c Hin).
  apply existsb_exists in A as (x & Hx & E).
  apply Ascii.eqb_eq in E. now subst x.
Qed.

Lemma identifier_char_not_allowed (c : ascii) :
  (65 <= nat_of_ascii c <= 90 \/ 97 <= nat_of_ascii c <= 122
   \/ nat_of_ascii c = 95) ->
  ~ In c Server.allowed_chars.
Proof.
  intros R H. unfold Server.allowed_chars in H. cbn [list_ascii_of_string In] in H.
  repeat (destruct H as [<-|H]; [vm_compute in R; lia|]).
  exact H.
Qed.

(** X9: [calculate] hands to [eval] only expressions made of the characters
    [0123456789+-*/()., ].  An expression with any other character, in
    particular any ASCII letter or underscore, is answered with the
    invalid-characters error without being evaluated; a success echoes the
    expression and carries the evaluator's value. *)
Theorem calculate_guard (V : Type) (py_eval : string -> outcome V) :
  (forall py_eval' expression,
     (forall s, Server.all_allowed s = true -> py_eval s = py_eval' s) ->
     Server.calculate py_eval expression = Server.calculate py_eval' expression)
  /\ (forall expression c,
        In c (list_ascii_of_string expression) ->
        (~ In c Server.allowed_chars
         \/ 65 <= nat_of_ascii c <= 90 \/ 97 <= nat_of_ascii c <= 122
         \/ nat_of_ascii c = 95) ->
        Server.calculate py_eval expression
          = Server.CalcError
              "Expression contains invalid characters. Only basic math operations are allowed.")
  /\ (forall expression echoed result,
        Server.calculate py_eval expression = Server.CalcSuccess echoed result ->
        echoed = expression
        /\ Server.all_allowed expression = true
        /\ py_eval expression = Returned result).
Proof.
  repeat split.
  - intros py_eval' expression H. unfold Server.calculate.
    destruct (Server.all_allowed expression) eqn:A; [|reflexivity].
    cbn [negb]. now rewrite (H expression A).
  - intros expression c Hin Hc. unfold Server.calculate.
    rewrite (not_allowed_rejected expression c Hin); [reflexivity|].
    destruct Hc as [Hc|Hc]; [exact Hc|].
    now apply identifier_char_not_allowed.
  - unfold Server.calculate in H.
    destruct (Server.all_allowed expression); [|discriminate H].
    cbn [negb] in H. destruct (py_eval expression); [|discriminate H].
    now injection H as <- _.
  - unfold Server.calculate in H.
    destruct (Server.all_allowed expression); [reflexivity|discriminate H].
  - unfold Server.calculate in H.
    destruct (Server.all_allowed expression); [|discriminate H].
    cbn [negb] in H. destruct (py_eval expression); [|discriminate H].
    now injection H as _ <-.
Qed.

Lemma calculate_guard_witness :
  Server.calculate (fun _ => Returned 4%Z) "__import__('os')"
    = Server.CalcError
        "Expression contains invalid characters. Only basic math operations are allowed.".
Proof.
  apply (proj1 (proj2 (calculate_guard Z (fun _ => Returned 4%Z)))
           "__import__('os')" "i"%char).
  - vm_compute. tauto.
  - right. right. left. vm_compute. lia.
Defined.





(* ------------------------------------------------------------------ *)
(** ** The chat page *)

Module AppFacts.
Import App.

Lemma get_response_frame s q :
  messages (snd (get_response s q)) = messages s
  /\ connected (snd (get_response s q)) = connected s
  /\ tools_available (snd (get_response s q)) = tools_available s.
Proof.
  unfold get_response. destruct (connected s) eqn:C; cbn [negb];
    [|cbn [snd]; now rewrite C].
  destruct (client s) as [c|]; [|cbn [snd]; now rewrite C].
  destruct (query c q) as [[r|e] c'];
    cbn [snd set_client messages connected tools_available]; now rewrite C.
Qed.

Lemma get_response_usable s q : usable s -> usable (snd (get_response s q)).
Proof.
  intros U Hc. destruct (get_response_frame s q) as (_ & Ec & _).
  rewrite Ec in Hc. destruct (U Hc) as (c & ag & Hcl & Hag).
  unfold get_response. rewrite Hc, Hcl. cbn [negb].
  destruct (query_frame c q) as (_ & Fa & _).
  destruct (query c q) as [[r|e] c'] eqn:Q; cbn [snd] in *;
    exists c', ag; split; try reflexivity; now rewrite Fa.
Qed.

Lemma connect_client_usable cfg env s :
  usable s -> usable (snd (connect_client cfg env s)).
Proof.
  intros U. unfold connect_client. destruct (client s) as [c|]; [exact U|].
  destruct (connect env (init cfg)) as [[[]|e] c'] eqn:Q; [|exact U].
  intros _. destruct (connect_success _ _ _ Q) as (ts & a & _ & _ & ->).
  cbn [snd client]. do 2 eexists. split; reflexivity.
Qed.

Lemma add_message_usable s m : usable s -> usable (add_message s m).
Proof. intros U. exact U. Qed.

Lemma chat_input_usable s prompt : usable s -> usable (chat_input s prompt).
Proof.
  intros U. unfold chat_input. destruct (connected s) eqn:C; cbn [negb]; [|exact U].
  pose proof (get_response_usable
                (add_message s (mkChat "user" prompt None)) prompt
                (add_message_usable _ _ U)) as U2.
  destruct (get_response _ prompt) as [[r st|msg] s2]; exact U2.
Qed.

Lemma step_usable s ev : usable s -> usable (step s ev).
Proof.
  intros U. destruct ev as [cfg env|cfg env| | |prompt]; cbn [step].
  - unfold auto_connect. destruct (connected s); cbn [negb]; [exact U|].
    destruct (client s) eqn:C; [exact U|]. now apply connect_client_usable.
  - unfold connect_button. destruct (client s) eqn:C.
    + destruct (connected s); [exact U|]. now apply connect_client_usable.
    + now apply connect_client_usable.
  - intros H. discriminate H.
  - exact U.
  - now apply chat_input_usable.
Qed.

Lemma fold_usable evs : forall s, usable s -> usable (fold_left step evs s).
Proof.
  induction evs as [|ev evs IH]; intros s U; cbn [fold_left]; [exact U|].
  apply IH. now apply step_usable.
Qed.

Lemma run_usable evs : usable (run evs).
Proof. apply fold_usable. intros H. discriminate H. Qed.




End AppFacts.

(** X12: in every session the page can reach, a connected session holds a
    client with an agent; so [get_response] never meets the exception that
    [query] raises before [connect]: it returns exactly what [query]
    returns. *)
Theorem reachable_session_usable (evs : list App.UIEvent) :
  App.usable (App.run evs)
  /\ forall q,
       App.connected (App.run evs) = true ->
       exists c r,
         App.client (App.run evs) = Some c
         /\ fst (query c q) = Returned r
         /\ fst (App.get_response (App.run evs) q) = r.
Proof.
  pose proof (AppFacts.run_usable evs) as U. split; [exact U|].
  intros q C. destruct (U C) as (c & ag & Hc & Ha).
  destruct (query_returns c q ag Ha) as [r Hr].
  exists c, r. repeat split; try assumption.
  unfold App.get_response. rewrite C, Hc. cbn [negb].
  destruct (query c q) as [o c']. cbn [fst] in Hr. now subst o.
Qed.

Lemma reachable_session_usable_witness :
  exists c r,
    App.client
      (App.run [App.PageLoad (example_config true 8)
                             (scripted_services (completed []));
                App.ChatInput "hello"]) = Some c
    /\ fst (query c "what time is it") = Returned r
    /\ fst (App.get_response
              (App.run [App.PageLoad (example_config true 8)
                                     (scripted_services (completed []));
                        App.ChatInput "hello"])
              "what time is it") = r.
Proof.
  apply (proj2 (reachable_session_usable
                  [App.PageLoad (example_config true 8)
                                (scripted_services (completed []));
                   App.ChatInput "hello"])
               "what time is it").
  reflexivity.
Defined.

(** X13: the page never reconnects a connected session.  In every reachable
    session that is connected, the Connect button and the connection attempt
    of a page load leave the session exactly as it is: [connect] is not
    called again, so the conversation memory is not reset. *)
Theorem connected_session_never_reconnects
        (evs : list App.UIEvent) (cfg : ClientConfig) (env : Services) :
  App.connected (App.run evs) = true ->
  App.step (App.run evs) (App.ConnectButton cfg env) = App.run evs
  /\ App.step (App.run evs) (App.PageLoad cfg env) = App.run evs
  /\ App.connect_client cfg env (App.run evs) = (true, App.run evs).
Proof.
  intros C. destruct (AppFacts.run_usable evs C) as (c & ag & Hc & _).
  cbn [App.step]. unfold App.connect_button, App.auto_connect, App.connect_client.
  rewrite C, Hc. auto.
Qed.

Lemma connected_session_never_reconnects_witness :
  App.step
    (App.run [App.ConnectButton
                (example_config true 8)
                (scripted_services (completed (stream_of [AgentTurn "noon" []])));
              App.ChatInput "what time is it"])
    (App.ConnectButton (example_config true 8) (scripted_services (completed [])))
  = App.run [App.ConnectButton
               (example_config true 8)
               (scripted_services (completed (stream_of [AgentTurn "noon" []])));
             App.ChatInput "what time is it"].
Proof.
  apply (connected_session_never_reconnects
           [App.ConnectButton
              (example_config true 8)
              (scripted_services (completed (stream_of [AgentTurn "noon" []])));
            App.ChatInput "what time is it"]
           (example_config true 8) (scripted_services (completed []))).
  reflexivity.
Defined.

(** X14: when [get_response] answers with status error, the chat history
    and the connected flag are as before and the client's conversation
    memory is unchanged, whether the error comes from the session not being
    connected, from [query] raising, or from [query] returning an error. *)
Theorem get_response_error_keeps_memory
        (s s' : App.Session) (q msg : string) :
  App.get_response s q = (Error msg, s') ->
  App.messages s' = App.messages s
  /\ App.connected s' = App.connected s
  /\ (App.connected s = false -> s' = s /\ msg = "Client not connected")
  /\ (forall c, App.client s = Some c -> App.connected s = true ->
        exists c', App.client s' = Some c' /\ memory c' = memory c).
Proof.
  intros H.
  destruct (AppFacts.get_response_frame s q) as (Em & Ec & _).
  rewrite H in Em, Ec. cbn [snd] in Em, Ec.
  split; [exact Em|]. split; [exact Ec|]. split.
  - intros C. unfold App.get_response in H. rewrite C in H. cbn [negb] in H.
    injection H as <- <-. auto.
  - intros c Hc C. unfold App.get_response in H. rewrite C, Hc in H.
    cbn [negb] in H. destruct (query c q) as [o c'] eqn:Q.
    exists c'. destruct o as [r|e].
    + injection H as -> <-. split; [reflexivity|].
      destruct (query_memory_cases _ _ _ _ Q) as [E|(m & r & st & E & _)];
        [exact E|discriminate E].
    + injection H as _ <-. split; [reflexivity|].
      destruct (query_memory_cases _ _ _ _ Q) as [E|(m & r & st & E & _)];
        [exact E|discriminate E].
Qed.

Lemma get_response_error_keeps_memory_witness :
  App.messages
    (snd (App.get_response
            (App.run [App.ConnectButton
                        (example_config true 8)
                        (scripted_services (failing (RuntimeError "rate limited")))])
            "what time is it"))
  = App.messages
      (App.run [App.ConnectButton
                  (example_config true 8)
                  (scripted_services (failing (RuntimeError "rate limited")))]).
Proof.
  apply (get_response_error_keeps_memory
           (App.run [App.ConnectButton
                       (example_config true 8)
                       (scripted_services (failing (RuntimeError "rate limited")))])
           _ "what time is it" "Query failed: rate limited").
  reflexivity.
Defined.



(** X16: [connect_client] on a session without a client.  When it returns
    False the session is unchanged, so the user can try again; when it
    returns True the session is connected and holds a new client with an
    agent, the configuration read at that moment, an empty memory, and the
    tools the provider listed, whose names are shown as available.  The chat
    history is kept in both cases. *)
Theorem connect_client_outcomes
        (cfg : ClientConfig) (env : Services) (s s' : App.Session) (ok : bool) :
  App.client s = None ->
  App.connect_client cfg env s = (ok, s') ->
  App.messages s' = App.messages s
  /\ (ok = false -> s' = s)
  /\ (ok = true ->
      App.connected s' = true
      /\ exists c ag,
           App.client s' = Some c /\ agent c = Some ag /\ config c = cfg
           /\ memory c = Some (ConversationMemory.new (memory_window_size cfg))
           /\ get_tools env = Returned (tools c)
           /\ App.tools_available s' = map tool_name (tools c)).
Proof.
  intros Hn H. unfold App.connect_client in H. rewrite Hn in H.
  destruct (connect env (init cfg)) as [[[]|e] c'] eqn:Q.
  - injection H as <- <-. split; [reflexivity|]. split; [discriminate|].
    intros _. split; [reflexivity|].
    destruct (connect_success _ _ _ Q) as (ts & a & Ht & _ & ->).
    exists (mkClient cfg
              (Some (mkChatGroq (groq_model cfg) (agent_timeout cfg) (verbose cfg)))
              (Some (mkChatGroq (groq_model cfg) (agent_timeout cfg) (verbose cfg)))
              (Some (mcp_url cfg)) (Some a)
              (Some (ConversationMemory.new (memory_window_size cfg)))
              ts (([] ++ [GetTools]) ++ [CreateAgent ts])), a.
    repeat split. exact Ht.
  - injection H as <- <-. split; [reflexivity|]. split; [reflexivity|].
    discriminate.
Qed.

Lemma connect_client_outcomes_witness :
  snd (App.connect_client
         (example_config true 8)
         (mkServices (Raised (mkExc "ConnectError" "connection refused"))
                     (fun _ => Raised (mkExc "TypeError" "unused")))
         App.initial)
    = App.initial.
Proof.
  apply (proj1 (proj2 (connect_client_outcomes
           (example_config true 8)
           (mkServices (Raised (mkExc "ConnectError" "connection refused"))
                       (fun _ => Raised (mkExc "TypeError" "unused")))
           App.initial _ false eq_refl eq_refl))).
  reflexivity.
Defined.
